(** * skill-schema: the validation pipeline of [scripts/validator.py]

    A shallow embedding of the validator script: the syntax checker, the
    JSON-LD context resolvers, the schema locator, the schema validator, the
    context conformance checker and the run orchestrator ([main]).

    The Python standard library ([os.path], [json], [glob]) and the two
    third-party engines ([pyld], [jsonschema]) are not part of the
    repository.  The pure string functions of [posixpath] are written out;
    everything that depends on the machine (the file system, the parser,
    the JSON-LD expansion engine, the schema validator) is a field of the
    record [World], so every theorem holds for every behaviour of those
    collaborators. *)

From Stdlib Require Import String Ascii List Bool Arith ZArith Lia.
From Stdlib Require Import DecimalString.
From Stdlib Require Import Floats.SpecFloat.
From Stdlib Require Import Sorting.Sorted Structures.OrderedTypeEx.
Import ListNotations.
Open Scope string_scope.

Set Implicit Arguments.

(** ** Python [str] operations used by the script *)

Module PyStr.

Definition nl : string := String (ascii_of_nat 10) EmptyString.

Definition slash : ascii := "/"%char.

(** [s.startswith(p)] *)
Definition startswith (s p : string) : bool := String.prefix p s.

(** [s.endswith(suf)] *)
Definition endswith (s suf : string) : bool :=
  (String.length suf <=? String.length s)%nat
  && (substring (String.length s - String.length suf) (String.length suf) s =? suf).

(** [s[:-k]] for a positive [k] *)
Definition drop_last (k : nat) (s : string) : string :=
  substring 0 (String.length s - k) s.

(** [needle in s] *)
Fixpoint contains (needle s : string) : bool :=
  String.prefix needle s
  || match s with
     | EmptyString => false
     | String _ s' => contains needle s'
     end.

(** [s.split(sep)] for a one-character separator: never empty *)
Fixpoint split (sep : ascii) (s : string) : list string :=
  match s with
  | EmptyString => [EmptyString]
  | String c s' =>
      if Ascii.eqb c sep then EmptyString :: split sep s'
      else match split sep s' with
           | [] => [String c EmptyString]
           | h :: t => String c h :: t
           end
  end.

(** [l[-1]] on a list of strings that is known to be non-empty *)
Definition last_item (l : list string) : string := List.last l EmptyString.

(** [sep.join(l)] *)
Definition join (sep : string) (l : list string) : string := String.concat sep l.

(** [s.rstrip('/')] *)
Fixpoint rstrip_slash (s : string) : string :=
  match s with
  | EmptyString => EmptyString
  | String c s' =>
      match rstrip_slash s' with
      | EmptyString => if Ascii.eqb c slash then EmptyString else String c EmptyString
      | r => String c r
      end
  end.

(** [str(n)] for a non-negative integer *)
Definition of_nat (n : nat) : string := NilEmpty.string_of_uint (Nat.to_uint n).

(** [str(z)] for an integer *)
Definition of_Z (z : Z) : string :=
  match z with
  | Z0 => "0"
  | Zpos p => of_nat (Pos.to_nat p)
  | Zneg p => "-" ++ of_nat (Pos.to_nat p)
  end.

(** [sorted(list(set(l)))]: ascending by code point, duplicates removed *)
Fixpoint insert_unique (x : string) (l : list string) : list string :=
  match l with
  | [] => [x]
  | y :: l' =>
      match String.compare x y with
      | Eq => y :: l'
      | Lt => x :: y :: l'
      | Gt => y :: insert_unique x l'
      end
  end.

Definition sorted_set (l : list string) : list string :=
  fold_right insert_unique [] l.

End PyStr.

(** ** [posixpath] *)

Module PosixPath.
Import PyStr.

Definition sep : string := "/".

(** [(p[:i], p[i:])] with [i = p.rfind('/') + 1] *)
Fixpoint rsplit (p : string) : string * string :=
  match p with
  | EmptyString => (EmptyString, EmptyString)
  | String c p' =>
      match rsplit p' with
      | (EmptyString, t) =>
          if Ascii.eqb c slash then (sep, t) else (EmptyString, String c t)
      | (h, t) => (String c h, t)
      end
  end.

Definition basename (p : string) : string := snd (rsplit p).

Fixpoint all_slashes (s : string) : bool :=
  match s with
  | EmptyString => true
  | String c s' => Ascii.eqb c slash && all_slashes s'
  end.

Definition dirname (p : string) : string :=
  let head := fst (rsplit p) in
  if negb (head =? "") && negb (all_slashes head) then rstrip_slash head
  else head.

Definition isabs (p : string) : bool := startswith p sep.

Definition join2 (a b : string) : string :=
  if startswith b sep then b
  else if (a =? "") || endswith a sep then a ++ b
  else a ++ sep ++ b.

(** [os.path.join(a, *ps)] *)
Definition join (a : string) (ps : list string) : string := fold_left join2 ps a.

Definition normpath_step (initial_slashes : nat) (new_comps : list string) (comp : string)
  : list string :=
  if (comp =? "") || (comp =? ".") then new_comps
  else if negb (comp =? "..")
          || ((initial_slashes =? 0)%nat && match new_comps with [] => true | _ => false end)
          || match new_comps with
             | [] => false
             | _ => PyStr.last_item new_comps =? ".."
             end
       then new_comps ++ [comp]
       else match new_comps with
            | [] => new_comps
            | _ => removelast new_comps
            end.

Definition normpath (path : string) : string :=
  if path =? "" then "."
  else
    let initial_slashes :=
      if startswith path "/" then
        if startswith path "//" && negb (startswith path "///") then 2 else 1
      else 0 in
    let comps := fold_left (normpath_step initial_slashes) (split slash path) [] in
    let joined := PyStr.join "/" comps in
    let path' := match initial_slashes with
                 | 0 => joined
                 | 1 => "/" ++ joined
                 | _ => "//" ++ joined
                 end in
    if path' =? "" then "." else path'.

(** [os.path.abspath(path)] in a process whose working directory is [cwd] *)
Definition abspath (cwd path : string) : string :=
  normpath (if isabs path then path else join cwd [path]).

End PosixPath.

(** ** Parsed JSON, as [json.load] returns it *)

#[warnings="-register-all"] Inductive json : Type :=
| JNull
| JBool (b : bool)
| JInt (z : Z)
| JFloat (f : spec_float)
| JStr (s : string)
| JList (l : list json)
| JDict (d : list (string * json)).

(** Python truthiness of a parsed value ([not v] is its negation). *)
Definition truthy (v : json) : bool :=
  match v with
  | JNull => false
  | JBool b => b
  | JInt z => negb (z =? 0)%Z
  | JFloat f => match f with S754_zero _ => false | _ => true end
  | JStr s => negb (s =? "")
  | JList l => match l with [] => false | _ => true end
  | JDict d => match d with [] => false | _ => true end
  end.

(** [type(v).__name__] *)
Definition type_name (v : json) : string :=
  match v with
  | JNull => "NoneType"
  | JBool _ => "bool"
  | JInt _ => "int"
  | JFloat _ => "float"
  | JStr _ => "str"
  | JList _ => "list"
  | JDict _ => "dict"
  end.

Fixpoint assoc (k : string) (d : list (string * json)) : option json :=
  match d with
  | [] => None
  | (k', v) :: d' => if k' =? k then Some v else assoc k d'
  end.

(** ** Exceptions

    The instances of [Exception] the script meets.  Each one carries what
    the handlers read from it. *)

Inductive path_elem : Type :=
| PKey (k : string)
| PIndex (i : Z).

Inductive exn : Type :=
| JSONDecodeError (msg : string) (pos lineno colno : nat)
| FileNotFoundError (text : string)
| JsonLdError (message type_ extra : string)
| ValidationError (message : string) (path : list path_elem)
| SchemaError (message : string)
| AttributeError (text : string)
| OtherException (text : string).

Definition path_elem_str (e : path_elem) : string :=
  match e with
  | PKey k => k
  | PIndex i => PyStr.of_Z i
  end.

(** [str(e)] *)
Definition exn_str (e : exn) : string :=
  match e with
  | JSONDecodeError msg pos lineno colno =>
      msg ++ ": line " ++ PyStr.of_nat lineno ++ " column " ++ PyStr.of_nat colno
          ++ " (char " ++ PyStr.of_nat pos ++ ")"
  | FileNotFoundError text => text
  | JsonLdError message type_ extra => message ++ PyStr.nl ++ "Type: " ++ type_ ++ extra
  | ValidationError message _ => message
  | SchemaError message => message
  | AttributeError text => text
  | OtherException text => text
  end.

(** A computation that returns a value or raises. *)
Inductive result (A : Type) : Type :=
| Return (a : A)
| Raise (e : exn).

Arguments Return {A} a.
Arguments Raise {A} e.

Definition rbind {A B : Type} (m : result A) (k : A -> result B) : result B :=
  match m with
  | Return a => k a
  | Raise e => Raise e
  end.

Notation "x <- m ;; k" := (rbind m (fun x => k))
  (at level 61, m at next level, right associativity).

(** [data.get(key)]: only a [dict] has the method; a missing key gives [None]. *)
Definition py_get (data : json) (key : string) : result json :=
  match data with
  | JDict d => Return (match assoc key d with Some v => v | None => JNull end)
  | _ => Raise (AttributeError ("'" ++ type_name data ++ "' object has no attribute 'get'"))
  end.

(** What a document loader hands back to the expansion engine. *)
Record RemoteDocument : Type := {
  contextUrl : option string;
  documentUrl : string;
  document : json
}.

(** ** The machine and the external engines *)

Record World : Type := {
  (** [os.getcwd()] *)
  getcwd : string;
  (** [__file__] of the validator script *)
  script_file : string;
  (** [os.path.exists], [os.path.isfile], [os.path.isdir] *)
  path_exists : string -> bool;
  path_isfile : string -> bool;
  path_isdir : string -> bool;
  (** [glob.glob(pattern, recursive=True)] *)
  glob_recursive : string -> list string;
  (** [with open(p, 'r', encoding='utf-8') as f: json.load(f)] *)
  load_json : string -> result json;
  (** [jsonld.expand(doc, {'documentLoader': loader})] *)
  jsonld_expand : json -> (string -> result RemoteDocument) -> result unit;
  (** [jsonschema.validate(instance=..., schema=...)] *)
  jsonschema_validate : json -> json -> result unit;
  (** [repr] of a parsed value *)
  py_repr : json -> string
}.

(** [f"{v}"]: [str] of a string is the string, of anything else its [repr]. *)
Definition format_json (w : World) (v : json) : string :=
  match v with
  | JStr s => s
  | _ => py_repr w v
  end.

(** [f"{p}"] for a value that is a path or [None] *)
Definition format_opt (p : option string) : string :=
  match p with
  | Some s => s
  | None => "None"
  end.


(** ** The checks *)

Definition LEGACY_CONTEXT_URL : string :=
  "https://raw.githubusercontent.com/ModelContext/skill-schema/main/contexts/".

Section Checks.

Variable w : World.

Local Abbreviation exists_ := (path_exists w).
Local Abbreviation abspath := (PosixPath.abspath (getcwd w)).

(** The block shared by the document loaders: read the context document
    at [local_path] and wrap it for the expansion engine. *)
Definition remote_document (local_path : string) : result RemoteDocument :=
  context_doc <- load_json w local_path ;;
  Return {| contextUrl := None;
            documentUrl := "file://" ++ abspath local_path;
            document := context_doc |}.

Definition validate_json_syntax (file_path : string) : result (bool * string) :=
  match load_json w file_path with
  | Return _ => Return (true, "")
  | Raise (JSONDecodeError msg _ lineno colno) =>
      Return (false, "Syntax error: " ++ msg ++ " (line " ++ PyStr.of_nat lineno
                       ++ ", column " ++ PyStr.of_nat colno ++ ")")
  | Raise (FileNotFoundError _) => Return (false, "Error: File not found.")
  | Raise e =>
      Return (false, "An unexpected error occurred during JSON syntax validation: "
                       ++ exn_str e)
  end.

(** *** Structure validator *)

(** The [local_path] chosen by [local_document_loader], the loader nested
    in [validate_jsonld_structure]. *)
Definition local_document_loader_path (file_path url : string) : string :=
  if PyStr.startswith url LEGACY_CONTEXT_URL then
    PosixPath.join (PosixPath.dirname (script_file w))
      [".."; "contexts"; PyStr.last_item (PyStr.split PyStr.slash url)]
  else if exists_ url then url
  else if exists_ (PosixPath.join (PosixPath.dirname file_path) [url]) then
    PosixPath.join (PosixPath.dirname file_path) [url]
  else PosixPath.join (PosixPath.dirname (script_file w)) [".."; "contexts"; url].

Definition local_document_loader (file_path url : string) : result RemoteDocument :=
  let local_path := local_document_loader_path file_path url in
  if exists_ local_path then remote_document local_path
  else Raise (JsonLdError
                ("Context URL " ++ url ++ " could not be resolved to a local file.")
                "jsonld.LoadContextError" "").

Definition validate_jsonld_structure (file_path : string) : result (bool * string) :=
  syntax <- validate_json_syntax file_path ;;
  let '(is_syntax_valid, syntax_error_message) := syntax in
  if negb is_syntax_valid then Return (false, syntax_error_message)
  else
    match (doc <- load_json w file_path ;;
           jsonld_expand w doc (local_document_loader file_path)) with
    | Return _ => Return (true, "")
    | Raise (JsonLdError _ _ _ as e) =>
        Return (false, "JSON-LD processing error: " ++ exn_str e)
    | Raise (FileNotFoundError _) =>
        Return (false, "Error: File not found (should not happen here).")
    | Raise e =>
        Return (false, "An unexpected error occurred during JSON-LD validation: "
                         ++ exn_str e)
    end.

(** *** Schema locator *)

Definition map_example_to_schema (example_file_path base_dir : string) : option string :=
  let file_name := PosixPath.basename example_file_path in
  let schema_base_name :=
    if PyStr.endswith file_name "_example.json" then
      Some (PyStr.drop_last (String.length "_example.json") file_name)
    else if PyStr.endswith file_name "_example.jsonld" then
      Some (PyStr.drop_last (String.length "_example.jsonld") file_name)
    else None in
  match schema_base_name with
  | None => None
  | Some schema_base_name =>
      if schema_base_name =? "" then None
      else
        let schema_file_name := schema_base_name ++ ".schema.json" in
        let schema_path := PosixPath.join base_dir ["schemas"; schema_file_name] in
        if exists_ schema_path then Some schema_path else None
  end.

(** *** Schema validator *)

Definition validate_with_schema (example_file_path schema_file_path : string)
  : result (bool * string) :=
  syntax <- validate_json_syntax example_file_path ;;
  let '(is_syntax_valid, syntax_error_message) := syntax in
  if negb is_syntax_valid then Return (false, syntax_error_message)
  else
    match load_json w example_file_path with
    | Raise e =>
        Return (false, "Error reading example file " ++ example_file_path ++ ": "
                         ++ exn_str e)
    | Return example_data =>
        match load_json w schema_file_path with
        | Raise (FileNotFoundError _) =>
            Return (false, "Schema file not found: " ++ schema_file_path)
        | Raise (JSONDecodeError msg _ lineno colno) =>
            Return (false, "Syntax error in schema file " ++ schema_file_path ++ ": "
                             ++ msg ++ " (line " ++ PyStr.of_nat lineno ++ ", col "
                             ++ PyStr.of_nat colno ++ ")")
        | Raise e =>
            Return (false, "Error reading schema file " ++ schema_file_path ++ ": "
                             ++ exn_str e)
        | Return schema_data =>
            match jsonschema_validate w example_data schema_data with
            | Return _ => Return (true, "")
            | Raise (ValidationError message path) =>
                let error_path := PyStr.join "->" (map path_elem_str path) in
                Return (false, "Schema validation error: " ++ message
                                 ++ " (at path: '" ++ error_path ++ "')")
            | Raise (SchemaError message) =>
                Return (false, "Invalid schema definition in " ++ schema_file_path
                                 ++ ": " ++ message)
            | Raise e =>
                Return (false, "An unexpected error occurred during schema validation: "
                                 ++ exn_str e)
            end
        end
    end.

(** *** Context conformance checker *)

Definition PROJECT_ROOT_FOR_CONTEXTS : string :=
  abspath (PosixPath.join (PosixPath.dirname (script_file w)) [".."]).

(** The name-to-context table of [check_context_utilization]. *)
Definition expected_context_name (file_name : string) : option string :=
  if file_name =? "code_classification_example.json" then
    Some "code_classification_context.jsonld"
  else if file_name =? "repo_profile_example.json" then
    Some "repo_profile_context.jsonld"
  else if file_name =? "skill_profile_example.json" then
    Some "skill_profile_context.jsonld"
  else None.

Definition local_document_loader_for_check_path (example_file_path url : string) : string :=
  if PyStr.startswith url LEGACY_CONTEXT_URL then
    PosixPath.join PROJECT_ROOT_FOR_CONTEXTS
      ["contexts"; PyStr.last_item (PyStr.split PyStr.slash url)]
  else if exists_ url then url
  else if exists_ (PosixPath.join (PosixPath.dirname example_file_path) [url]) then
    PosixPath.join (PosixPath.dirname example_file_path) [url]
  else PosixPath.join PROJECT_ROOT_FOR_CONTEXTS ["contexts"; url].

Definition local_document_loader_for_check (example_file_path url : string)
  : result RemoteDocument :=
  let _local_path := local_document_loader_for_check_path example_file_path url in
  if exists_ _local_path then remote_document _local_path
  else Raise (JsonLdError
                ("Context URL " ++ url ++ " could not be resolved to a local file.")
                "jsonld.LoadContextError" "").

Definition expected_local_context_path (expected_name : string) : string :=
  PosixPath.normpath
    (PosixPath.join PROJECT_ROOT_FOR_CONTEXTS ["contexts"; expected_name]).

(** [normalized_actual_context_path]: stays [None] unless [actual_context]
    is a string that one of the attempts resolves. *)
Definition normalized_actual_context_path (example_file_path : string)
    (actual_context : json) : option string :=
  match actual_context with
  | JStr actual =>
      if PosixPath.isabs actual then Some (PosixPath.normpath actual)
      else
        let path_relative_to_example :=
          PosixPath.normpath
            (PosixPath.join (PosixPath.dirname example_file_path) [actual]) in
        if exists_ path_relative_to_example then Some path_relative_to_example
        else
          let path_relative_to_project_contexts :=
            PosixPath.normpath
              (PosixPath.join PROJECT_ROOT_FOR_CONTEXTS ["contexts"; actual]) in
          if exists_ path_relative_to_project_contexts then
            Some path_relative_to_project_contexts
          else if PyStr.startswith actual LEGACY_CONTEXT_URL then
            Some (PosixPath.normpath
                    (PosixPath.join PROJECT_ROOT_FOR_CONTEXTS
                       ["contexts"; PyStr.last_item (PyStr.split PyStr.slash actual)]))
          else None
  | _ => None
  end.

(** [not p] for a value that is a string or [None] *)
Definition falsy_path (p : option string) : bool :=
  match p with
  | None => true
  | Some s => s =? ""
  end.

(** [p != expected] for a value [p] that is a string or [None] *)
Definition differs (p : option string) (expected : string) : bool :=
  match p with
  | None => true
  | Some s => negb (s =? expected)
  end.

Definition local_document_loader_for_mismatch (normalized : option string) (url : string)
  : result RemoteDocument :=
  let _actual_path_to_try :=
    if falsy_path normalized
       && exists_ (PosixPath.join PROJECT_ROOT_FOR_CONTEXTS ["contexts"; url]) then
      Some (PosixPath.join PROJECT_ROOT_FOR_CONTEXTS ["contexts"; url])
    else if falsy_path normalized && exists_ url then Some url
    else normalized in
  match _actual_path_to_try with
  | Some p =>
      if negb (p =? "") && exists_ p then remote_document p
      else Raise (JsonLdError
                    ("Context URL " ++ url ++ " (from actual_context) could not be "
                       ++ "resolved to a local file for expansion.")
                    "jsonld.LoadContextError" "")
  | None =>
      Raise (JsonLdError
               ("Context URL " ++ url ++ " (from actual_context) could not be "
                  ++ "resolved to a local file for expansion.")
               "jsonld.LoadContextError" "")
  end.

Definition local_document_loader_for_expected (url : string) : result RemoteDocument :=
  let _path_to_load :=
    if exists_ url then url
    else PosixPath.join PROJECT_ROOT_FOR_CONTEXTS ["contexts"; url] in
  if exists_ _path_to_load then remote_document _path_to_load
  else Raise (JsonLdError
                ("Context URL " ++ url ++ " (expected) could not be resolved to a "
                   ++ "local file.")
                "jsonld.LoadContextError" "").

(** The first sentence of the mismatch report. *)
Definition mismatch_message (expected : string) (actual_context : json)
    (normalized : option string) : string :=
  "Context path mismatch: Expected '" ++ expected ++ "', but found '"
    ++ format_json w actual_context ++ "' (resolved to '" ++ format_opt normalized
    ++ "').".

Definition check_context_utilization (example_file_path base_dir : string)
  : result (bool * string) :=
  syntax <- validate_json_syntax example_file_path ;;
  let '(is_syntax_valid, syntax_error_message) := syntax in
  if negb is_syntax_valid then Return (false, syntax_error_message)
  else
    match load_json w example_file_path with
    | Raise e =>
        Return (false, "Error reading example file " ++ example_file_path ++ ": "
                         ++ exn_str e)
    | Return data =>
        actual_context <- py_get data "@context" ;;
        if negb (truthy actual_context) then
          Return (false, "Missing '@context' key in the example file.")
        else
          let file_name := PosixPath.basename example_file_path in
          match expected_context_name file_name with
          | None =>
              match jsonld_expand w data
                      (local_document_loader_for_check example_file_path) with
              | Return _ =>
                  Return (true,
                    "WARNING: No specific expected context mapping for " ++ file_name
                      ++ ". Document expanded successfully with provided context '"
                      ++ format_json w actual_context ++ "'.")
              | Raise e_expand =>
                  Return (false,
                    "WARNING: No specific expected context mapping for " ++ file_name
                      ++ ". Expansion with provided context '"
                      ++ format_json w actual_context ++ "' failed: "
                      ++ exn_str e_expand)
              end
          | Some expected_name =>
              let expected := expected_local_context_path expected_name in
              let normalized :=
                normalized_actual_context_path example_file_path actual_context in
              if falsy_path normalized || differs normalized expected then
                let message := mismatch_message expected actual_context normalized in
                match jsonld_expand w data
                        (local_document_loader_for_mismatch normalized) with
                | Return _ =>
                    Return (false, message
                      ++ " However, the document expanded successfully with the "
                      ++ "provided (mismatched) context.")
                | Raise e_expand =>
                    Return (false, message
                      ++ " Additionally, JSON-LD expansion with the provided "
                      ++ "(mismatched) context failed: " ++ exn_str e_expand)
                end
              else
                match jsonld_expand w data local_document_loader_for_expected with
                | Return _ => Return (true, "")
                | Raise (JsonLdError _ _ _ as e) =>
                    Return (false,
                      "JSON-LD expansion error (with expected context path '"
                        ++ expected ++ "'): " ++ exn_str e)
                | Raise e =>
                    Return (false,
                      "Unexpected error during JSON-LD expansion (with expected "
                        ++ "context path '" ++ expected ++ "'): " ++ exn_str e)
                end
          end
    end.

End Checks.

(** ** The run orchestrator *)

(** The parsed command line ([argparse] has already rejected an empty
    [paths]). *)
Record Args : Type := {
  paths : list string;
  run_syntax : bool;
  run_jsonld : bool;
  run_schema : bool;
  run_context : bool;
  verbose : bool
}.

(** The local variables of [main] that outlive the stages. *)
Record Locals : Type := {
  files_to_process : list string;
  example_files : list string;
  jsonld_files : list string;
  total_syntax_errors : nat;
  total_jsonld_errors : nat;
  total_schema_errors : nat;
  total_context_errors : nat
}.

(** A computation that prints lines on standard output and then returns or
    raises; the lines printed before an exception stay printed. *)
Definition M (A : Type) : Type := (list string * result A)%type.

Definition mret {A : Type} (a : A) : M A := ([], Return a).

Definition mbind {A B : Type} (m : M A) (k : A -> M B) : M B :=
  match m with
  | (out, Return a) => let '(out', r) := k a in ((out ++ out')%list, r)
  | (out, Raise e) => (out, Raise e)
  end.

Definition print (line : string) : M unit := ([line], Return tt).

Definition lift {A : Type} (r : result A) : M A := ([], r).

Notation "x <~ m ;; k" := (mbind m (fun x => k))
  (at level 61, m at next level, right associativity).
Notation "m ;;; k" := (mbind m (fun _ => k))
  (at level 61, right associativity).

Definition when (b : bool) (m : M unit) : M unit := if b then m else mret tt.

(** [for x in xs: acc = body(x, acc)] *)
Fixpoint for_each {A S : Type} (body : A -> S -> M S) (xs : list A) (acc : S) : M S :=
  match xs with
  | [] => mret acc
  | x :: xs' => acc' <~ body x acc ;; for_each body xs' acc'
  end.

(** The condition of the [example_files] comprehension. *)
Definition is_example (f : string) : bool :=
  existsb (String.eqb "examples") (PyStr.split PyStr.slash (PosixPath.normpath f))
  || PyStr.contains "_example.json" f
  || PyStr.contains "_example.jsonld" f.

Section Orchestrator.

Variable w : World.
Variable args : Args.

Definition run_all_checks : bool :=
  negb (run_syntax args || run_jsonld args || run_schema args || run_context args).

Definition print_verbose_header : M unit :=
  when (verbose args)
    (print "Verbose mode enabled." ;;;
     print ("Validating paths: " ++ py_repr w (JList (map JStr (paths args)))) ;;;
     if run_all_checks then print "Running all validation checks."
     else
       when (run_syntax args) (print "Syntax check enabled.") ;;;
       when (run_jsonld args) (print "JSON-LD check enabled.") ;;;
       when (run_schema args) (print "Schema check enabled.") ;;;
       when (run_context args) (print "Context check enabled.")).

(** One round of the discovery loop. *)
Definition discover (path_arg : string) (found : list string) : M (list string) :=
  if path_isfile w path_arg then
    mret (found ++ [PosixPath.abspath (getcwd w) path_arg])%list
  else if path_isdir w path_arg then
    mret ((found ++ glob_recursive w (PosixPath.join path_arg ["**/*.json"]))
            ++ glob_recursive w (PosixPath.join path_arg ["**/*.jsonld"]))%list
  else
    print ("Warning: Path '" ++ path_arg
             ++ "' is not a valid file or directory. Skipping.") ;;;
    mret found.

(** Step 2: one round of the syntax loop. *)
Definition syntax_step (file_path : string) (current_syntax_errors : nat) : M nat :=
  r <~ lift (validate_json_syntax w file_path) ;;
  let '(is_valid, error_message) := r in
  if negb is_valid then
    print ("File: " ++ file_path ++ " - " ++ error_message) ;;;
    mret (current_syntax_errors + 1)
  else
    when (verbose args) (print ("File: " ++ file_path ++ " - JSON syntax OK.")) ;;;
    mret current_syntax_errors.

Definition syntax_stage (files : list string) : M nat :=
  print (PyStr.nl ++ "--- Running Basic JSON Syntax Validation ---") ;;;
  current_syntax_errors <~ for_each syntax_step files 0 ;;
  (if (current_syntax_errors =? 0)%nat then
     print "All checked files have valid JSON syntax."
   else
     print (PyStr.nl ++ "Found JSON syntax errors in "
              ++ PyStr.of_nat current_syntax_errors ++ " file(s) during this run.")) ;;;
  mret current_syntax_errors.

(** Step 3: one round of the structure loop. *)
Definition jsonld_step (file_path : string) (current_jsonld_errors : nat) : M nat :=
  r <~ lift (validate_jsonld_structure w file_path) ;;
  let '(is_valid, error_message) := r in
  if negb is_valid then
    print ("File: " ++ file_path ++ " - " ++ error_message) ;;;
    mret (current_jsonld_errors + 1)
  else
    when (verbose args) (print ("File: " ++ file_path ++ " - JSON-LD structure OK.")) ;;;
    mret current_jsonld_errors.

Definition jsonld_stage (files : list string) : M nat :=
  print (PyStr.nl ++ "--- Running JSON-LD Structure Validation ---") ;;;
  match files with
  | [] =>
      print ("No .jsonld files found for JSON-LD structure validation among "
               ++ "processed files.") ;;;
      mret 0
  | _ =>
      current_jsonld_errors <~ for_each jsonld_step files 0 ;;
      (if (current_jsonld_errors =? 0)%nat then
         print ("All checked .jsonld files have valid JSON-LD structure (or only "
                  ++ "had syntax errors reported above).")
       else
         print (PyStr.nl ++ "Found JSON-LD processing errors in "
                  ++ PyStr.of_nat current_jsonld_errors ++ " .jsonld file(s).")) ;;;
      mret current_jsonld_errors
  end.

(** Step 4: one round of the schema loop. *)
Definition schema_step (example_file : string) (current_schema_errors : nat) : M nat :=
  when (verbose args) (print ("Processing example for schema: " ++ example_file)) ;;;
  match map_example_to_schema w example_file "." with
  | Some schema_file =>
      when (verbose args)
        (print ("  Attempting to validate against schema: " ++ schema_file)) ;;;
      r <~ lift (validate_with_schema w example_file schema_file) ;;
      let '(is_valid, error_message) := r in
      if negb is_valid then
        print ("  File: " ++ example_file ++ " - ERROR (Schema): " ++ error_message) ;;;
        mret (current_schema_errors + 1)
      else
        when (verbose args)
          (print ("  File: " ++ example_file
                    ++ " - SUCCESS (Schema): Validated successfully.")) ;;;
        mret current_schema_errors
  | None =>
      when (verbose args)
        (print ("  File: " ++ example_file
                  ++ " - WARNING (Schema): No corresponding schema found. Skipping.")) ;;;
      mret current_schema_errors
  end.

Definition schema_stage (examples : list string) : M nat :=
  print (PyStr.nl ++ "--- Running Schema Validation for Examples ---") ;;;
  match examples with
  | [] =>
      print "No example files found for schema validation among processed files." ;;;
      mret 0
  | _ =>
      current_schema_errors <~ for_each schema_step examples 0 ;;
      (if (current_schema_errors =? 0)%nat then
         print ("All processed example files validated successfully against their "
                  ++ "schemas (or no schema was found/applicable).")
       else
         print (PyStr.nl ++ "Found schema validation errors in "
                  ++ PyStr.of_nat current_schema_errors ++ " example file(s).")) ;;;
      mret current_schema_errors
  end.

(** Step 5: one round of the context loop. *)
Definition context_step (example_file : string) (current_context_errors : nat) : M nat :=
  when (verbose args) (print ("Processing example for context: " ++ example_file)) ;;;
  r <~ lift (check_context_utilization w example_file ".") ;;
  let '(is_valid, message) := r in
  if negb is_valid then
    print ("  File: " ++ example_file ++ " - ERROR (Context): " ++ message) ;;;
    mret (current_context_errors + 1)
  else if negb (message =? "") && verbose args then
    print ("  File: " ++ example_file ++ " - WARNING (Context): " ++ message) ;;;
    mret current_context_errors
  else
    when (verbose args)
      (print ("  File: " ++ example_file
                ++ " - SUCCESS (Context): Context utilized correctly.")) ;;;
    mret current_context_errors.

Definition context_stage (examples : list string) : M nat :=
  print (PyStr.nl ++ "--- Running JSON-LD Context Utilization Check for Examples ---") ;;;
  match examples with
  | [] =>
      print ("No example files found for context utilization check among "
               ++ "processed files.") ;;;
      mret 0
  | _ =>
      current_context_errors <~ for_each context_step examples 0 ;;
      (if (current_context_errors =? 0)%nat then
         print ("All processed example files utilize their JSON-LD contexts "
                  ++ "correctly (or no specific checks applied).")
       else
         print (PyStr.nl ++ "Found context utilization issues in "
                  ++ PyStr.of_nat current_context_errors ++ " example file(s).")) ;;;
      mret current_context_errors
  end.

(** *** The summary block *)

Definition syntax_summary_line (errors checked : nat) : string :=
  "JSON Syntax Validation: " ++ PyStr.of_nat errors ++ " error(s) found out of "
    ++ PyStr.of_nat checked ++ " files checked.".

Definition jsonld_summary_line (errors checked : nat) : string :=
  "JSON-LD Structure Validation: " ++ PyStr.of_nat errors ++ " error(s) found out of "
    ++ PyStr.of_nat checked ++ " .jsonld files checked.".

Definition schema_summary_line (errors checked : nat) : string :=
  "Schema Validation (Examples): " ++ PyStr.of_nat errors ++ " error(s) found out of "
    ++ PyStr.of_nat checked ++ " example files processed for schema checks.".

Definition context_summary_line (errors checked : nat) : string :=
  "Context Utilization (Examples): " ++ PyStr.of_nat errors ++ " error(s) found out of "
    ++ PyStr.of_nat checked ++ " example files processed for context checks.".

Definition PASSED_LINE : string :=
  PyStr.nl ++ "All selected validations passed successfully for all processed files!".

Definition FAILED_LINE : string :=
  PyStr.nl ++ "Some validations failed. Please review the errors detailed above.".

Definition no_errors (l : Locals) : bool :=
  (total_syntax_errors l =? 0)%nat && (total_jsonld_errors l =? 0)%nat
  && (total_schema_errors l =? 0)%nat && (total_context_errors l =? 0)%nat.

(** The closing statement; [checks_were_run] is the flag of the source. *)
Definition verdict_line (checks_were_run : bool) (l : Locals) : string :=
  if negb checks_were_run then "No specific validation checks were selected to run."
  else if no_errors l then PASSED_LINE
  else FAILED_LINE.

Definition FINISHED_LINE : string := PyStr.nl ++ "--- Validation Process Finished ---".

Definition SUMMARY_HEADER : string := PyStr.nl ++ "--- Validation Summary ---".

Definition summary_lines (l : Locals) : list string :=
  let files_actually_processed_count := List.length (files_to_process l) in
  List.concat
    [ [FINISHED_LINE; SUMMARY_HEADER];
      (if run_all_checks || run_syntax args then
         [syntax_summary_line (total_syntax_errors l) files_actually_processed_count]
       else []);
      (if run_all_checks || run_jsonld args then
         let num_jsonld_files_checked := List.length (jsonld_files l) in
         [jsonld_summary_line (total_jsonld_errors l) num_jsonld_files_checked]
       else []);
      (if run_all_checks || run_schema args then
         let num_example_files_for_schema := List.length (example_files l) in
         [schema_summary_line (total_schema_errors l) num_example_files_for_schema]
       else []);
      (if run_all_checks || run_context args then
         let num_example_files_for_context := List.length (example_files l) in
         [context_summary_line (total_context_errors l) num_example_files_for_context]
       else []);
      [verdict_line
         ((run_all_checks || run_syntax args) || (run_all_checks || run_jsonld args)
          || (run_all_checks || run_schema args) || (run_all_checks || run_context args))
         l] ].

Definition print_all (lines : list string) : M unit := (lines, Return tt).

(** [main()].  Python's [main] returns [None]; the embedding returns the
    final values of its local variables, or [None] after the early
    [return] of a run that found no file. *)
Definition main : M (option Locals) :=
  print_verbose_header ;;;
  found <~ for_each discover (paths args) [] ;;
  let files := PyStr.sorted_set found in
  match files with
  | [] =>
      print "No files found to validate based on the provided paths." ;;;
      mret None
  | _ =>
      let examples := filter is_example files in
      let jsonlds := filter (fun f => PyStr.endswith f ".jsonld") files in
      syntax_errors <~ (if run_all_checks || run_syntax args then syntax_stage files
                        else mret 0) ;;
      jsonld_errors <~ (if run_all_checks || run_jsonld args then jsonld_stage jsonlds
                        else mret 0) ;;
      schema_errors <~ (if run_all_checks || run_schema args then schema_stage examples
                        else mret 0) ;;
      context_errors <~ (if run_all_checks || run_context args then
                           context_stage examples
                         else mret 0) ;;
      let l := {| files_to_process := files;
                  example_files := examples;
                  jsonld_files := jsonlds;
                  total_syntax_errors := syntax_errors;
                  total_jsonld_errors := jsonld_errors;
                  total_schema_errors := schema_errors;
                  total_context_errors := context_errors |} in
      print_all (summary_lines l) ;;;
      mret (Some l)
  end.

(** The exit status of [python validator.py ...] once the two third-party
    imports have succeeded: the script ends by calling [main()], so the
    interpreter exits with 0 when [main] returns and with 1 when an
    exception escapes it. *)
Definition exit_code : Z :=
  match snd main with
  | Return _ => 0
  | Raise _ => 1
  end%Z.

(** Standard output of the run. *)
Definition stdout : list string := fst main.

End Orchestrator.

(** ** The schema locator and the classification as the specification words them

    Two definitions that follow the prose of the specification instead of
    the script; the theorems below compare them with [map_example_to_schema]
    and [is_example]. *)

Module Stated.

(** "[base_dir/schemas/<stem>.schema.json]" *)
Definition derived_schema_path (base_dir stem : string) : string :=
  PosixPath.join base_dir ["schemas"; stem ++ ".schema.json"].

(** "If it ends with one of two recognized example suffixes, strip the
    suffix to get a stem; else the file is not an example." *)
Definition stem_of (file_name : string) : option string :=
  if PyStr.endswith file_name "_example.json" then
    Some (PyStr.drop_last (String.length "_example.json") file_name)
  else if PyStr.endswith file_name "_example.jsonld" then
    Some (PyStr.drop_last (String.length "_example.jsonld") file_name)
  else None.

(** "No binding in exactly two cases: no recognized suffix, or the derived
    schema path does not exist; otherwise the derived path." *)
Definition schema_locator (w : World) (example_file_path base_dir : string)
  : option string :=
  match stem_of (PosixPath.basename example_file_path) with
  | None => None
  | Some stem =>
      if path_exists w (derived_schema_path base_dir stem) then
        Some (derived_schema_path base_dir stem)
      else None
  end.

(** "Its resolved absolute path contains a path segment literally named
    [examples], or its name matches one of the two example-suffix
    conventions." *)
Definition classified_as_example (w : World) (f : string) : bool :=
  existsb (String.eqb "examples")
    (PyStr.split PyStr.slash (PosixPath.abspath (getcwd w) f))
  || PyStr.endswith (PosixPath.basename f) "_example.json"
  || PyStr.endswith (PosixPath.basename f) "_example.jsonld".

End Stated.

(** ** Reading aids for the theorems *)

(** What the schema locator does with a stem, once the suffix is off. *)
Definition bind_stem (w : World) (base_dir stem : string) : option string :=
  if stem =? "" then None
  else if path_exists w (Stated.derived_schema_path base_dir stem) then
    Some (Stated.derived_schema_path base_dir stem)
  else None.

(** Where the loader of the structure validator looks for a context file
    name: [<script dir>/../contexts/<name>]. *)
Definition structure_contexts_file (w : World) (name : string) : string :=
  PosixPath.join (PosixPath.dirname (script_file w)) [".."; "contexts"; name].

(** Where the loader of the context check looks for a context file name:
    [PROJECT_ROOT_FOR_CONTEXTS/contexts/<name>]. *)
Definition check_contexts_file (w : World) (name : string) : string :=
  PosixPath.join (PROJECT_ROOT_FOR_CONTEXTS w) ["contexts"; name].

(** The four resolution rules, in order, for a reference [url] found in the
    document [doc_path]; [contexts_file] places a name under the
    contexts-root and [chosen] is the local path the loader settles on. *)
Definition resolution_order (w : World) (contexts_file : string -> string)
    (doc_path url chosen : string) : Prop :=
  (PyStr.startswith url LEGACY_CONTEXT_URL = true ->
     chosen = contexts_file (PyStr.last_item (PyStr.split PyStr.slash url)))
  /\ (PyStr.startswith url LEGACY_CONTEXT_URL = false ->
      path_exists w url = true ->
      chosen = url)
  /\ (PyStr.startswith url LEGACY_CONTEXT_URL = false ->
      path_exists w url = false ->
      path_exists w (PosixPath.join (PosixPath.dirname doc_path) [url]) = true ->
      chosen = PosixPath.join (PosixPath.dirname doc_path) [url])
  /\ (PyStr.startswith url LEGACY_CONTEXT_URL = false ->
      path_exists w url = false ->
      path_exists w (PosixPath.join (PosixPath.dirname doc_path) [url]) = false ->
      chosen = contexts_file url).

(** The end of the chain: the chosen path is read if it exists, and
    otherwise the loader raises an error that names the reference. *)
Definition loads_or_fails (w : World) (url chosen : string)
    (outcome : result RemoteDocument) : Prop :=
  (path_exists w chosen = true -> outcome = remote_document w chosen)
  /\ (path_exists w chosen = false ->
      outcome = Raise (JsonLdError
                         ("Context URL " ++ url
                            ++ " could not be resolved to a local file.")
                         "jsonld.LoadContextError" "")).

(** A check reports an error on a file when it returns failure. *)
Definition reports_failure (r : result (bool * string)) : bool :=
  match r with
  | Return (false, _) => true
  | _ => false
  end.

Definition syntax_fails (w : World) (f : string) : bool :=
  reports_failure (validate_json_syntax w f).

Definition jsonld_fails (w : World) (f : string) : bool :=
  reports_failure (validate_jsonld_structure w f).

Definition schema_fails (w : World) (f : string) : bool :=
  match map_example_to_schema w f "." with
  | Some schema_file => reports_failure (validate_with_schema w f schema_file)
  | None => false
  end.

Definition context_fails (w : World) (f : string) : bool :=
  reports_failure (check_context_utilization w f ".").

(** [count fails files]: on how many of [files] a check reports an error. *)
Definition count (fails : string -> bool) (files : list string) : nat :=
  List.length (filter fails files).

(** The checks a run selects: all four when no flag is given. *)
Definition selects_syntax (args : Args) : bool := run_all_checks args || run_syntax args.
Definition selects_jsonld (args : Args) : bool := run_all_checks args || run_jsonld args.
Definition selects_schema (args : Args) : bool := run_all_checks args || run_schema args.
Definition selects_context (args : Args) : bool := run_all_checks args || run_context args.

(** ** A small project on disk, for concrete runs *)

Module Sample.

(** A disk without symbolic links: a path names what its normalised
    absolute form names. *)
Record Disk : Type := {
  d_cwd : string;
  d_script : string;
  d_files : list (string * result json);
  d_dirs : list string;
  d_globs : list (string * list string)
}.

Fixpoint lookup {A : Type} (k : string) (l : list (string * A)) : option A :=
  match l with
  | [] => None
  | (k', v) :: l' => if k' =? k then Some v else lookup k l'
  end.

Definition sample_repr (v : json) : string :=
  match v with
  | JNull => "None"
  | JBool true => "True"
  | JBool false => "False"
  | JInt z => PyStr.of_Z z
  | JFloat _ => "0.0"
  | JStr s => "'" ++ s ++ "'"
  | JList [] => "[]"
  | JList _ => "[...]"
  | JDict [] => "{}"
  | JDict _ => "{...}"
  end.

(** An expansion engine that fetches the context a document names and
    asks for nothing else. *)
Definition sample_expand (doc : json) (loader : string -> result RemoteDocument)
  : result unit :=
  match doc with
  | JDict d =>
      match assoc "@context" d with
      | Some (JStr url) => _ <- loader url ;; Return tt
      | _ => Return tt
      end
  | _ => Return tt
  end.

Definition world_of (d : Disk) : World :=
  let resolve := PosixPath.abspath (d_cwd d) in
  {| getcwd := d_cwd d;
     script_file := d_script d;
     path_exists := fun p =>
       match lookup (resolve p) (d_files d) with
       | Some _ => true
       | None => existsb (String.eqb (resolve p)) (d_dirs d)
       end;
     path_isfile := fun p =>
       match lookup (resolve p) (d_files d) with
       | Some _ => true
       | None => false
       end;
     path_isdir := fun p => existsb (String.eqb (resolve p)) (d_dirs d);
     glob_recursive := fun pattern =>
       match lookup pattern (d_globs d) with
       | Some l => l
       | None => []
       end;
     load_json := fun p =>
       match lookup (resolve p) (d_files d) with
       | Some r => r
       | None =>
           Raise (FileNotFoundError
                    ("[Errno 2] No such file or directory: '" ++ p ++ "'"))
       end;
     jsonld_expand := sample_expand;
     jsonschema_validate := fun _ _ => Return tt;
     py_repr := sample_repr |}.

Definition context_body : json :=
  JDict [("@context", JDict [("name", JStr "http://schema.org/name")])].

(** [/proj]: two context documents, no schema, four files under
    [examples/]: one with an unknown name and a dangling context, one
    with a known name that declares the context of another profile, one
    with a known name and an inline context object, one that is not
    JSON. *)
Definition project : Disk :=
  {| d_cwd := "/proj";
     d_script := "/proj/scripts/validator.py";
     d_files :=
       [("/proj/contexts/skill_profile_context.jsonld", Return context_body);
        ("/proj/contexts/repo_profile_context.jsonld", Return context_body);
        ("/proj/examples/foo_example.json",
          Return (JDict [("@context", JStr "missing_context.jsonld");
                         ("name", JStr "foo")]));
        ("/proj/examples/skill_profile_example.json",
          Return (JDict [("@context", JStr "../contexts/repo_profile_context.jsonld");
                         ("name", JStr "skill")]));
        ("/proj/examples/repo_profile_example.json",
          Return (JDict [("@context",
                           JDict [("name", JStr "http://schema.org/name")]);
                         ("name", JStr "repo")]));
        ("/proj/examples/broken.json",
          Raise (JSONDecodeError "Expecting property name enclosed in double quotes"
                   17 2 3))];
     d_dirs := ["/proj"; "/proj/contexts"; "/proj/examples"; "/proj/schemas";
                "/proj/scripts"];
     d_globs :=
       [("examples/**/*.json",
          ["examples/foo_example.json"; "examples/skill_profile_example.json";
           "examples/repo_profile_example.json"; "examples/broken.json"])] |}.

(** [/proj2]: an empty [schemas/] and one well-formed example whose
    context resolves. *)
Definition schemaless : Disk :=
  {| d_cwd := "/proj2";
     d_script := "/proj2/scripts/validator.py";
     d_files :=
       [("/proj2/contexts/foo_context.jsonld", Return context_body);
        ("/proj2/examples/foo_example.json",
          Return (JDict [("@context", JStr "foo_context.jsonld");
                         ("name", JStr "foo")]))];
     d_dirs := ["/proj2"; "/proj2/contexts"; "/proj2/examples"; "/proj2/schemas";
                "/proj2/scripts"];
     d_globs := [("examples/**/*.json", ["examples/foo_example.json"])] |}.

(** [/proj3]: a schema for [foo], a schema file with an empty stem, and
    the two examples that would bind to them. *)
Definition bound : Disk :=
  {| d_cwd := "/proj3";
     d_script := "/proj3/scripts/validator.py";
     d_files :=
       [("/proj3/schemas/foo.schema.json", Return (JDict [("type", JStr "object")]));
        ("/proj3/schemas/.schema.json", Return (JDict [("type", JStr "object")]));
        ("/proj3/examples/foo_example.json", Return (JDict [("name", JStr "foo")]));
        ("/proj3/examples/_example.json", Return (JDict [("name", JStr "anonymous")]))];
     d_dirs := ["/proj3"; "/proj3/examples"; "/proj3/schemas"; "/proj3/scripts"];
     d_globs :=
       [("examples/**/*.json", ["examples/foo_example.json"; "examples/_example.json"])] |}.

(** [/srv/examples/site]: a checkout that lives below a directory named
    [examples]; its data files sit in [data/]. *)
Definition nested : Disk :=
  {| d_cwd := "/srv/examples/site";
     d_script := "/srv/examples/site/scripts/validator.py";
     d_files :=
       [("/srv/examples/site/data/a.json", Return (JDict [("name", JStr "a")]))];
     d_dirs := ["/srv"; "/srv/examples"; "/srv/examples/site";
                "/srv/examples/site/data"; "/srv/examples/site/scripts"];
     d_globs := [("data/**/*.json", ["data/a.json"])] |}.

(** [/proj4]: a context document named [shared.jsonld] both in the working
    directory and under [contexts/], with different bodies. *)
Definition twofold : Disk :=
  {| d_cwd := "/proj4";
     d_script := "/proj4/scripts/validator.py";
     d_files :=
       [("/proj4/shared.jsonld", Return (JDict [("@context", JStr "literal")]));
        ("/proj4/contexts/shared.jsonld", Return (JDict [("@context", JStr "root")]));
        ("/proj4/examples/x.jsonld",
          Return (JDict [("@context", JStr "shared.jsonld")]))];
     d_dirs := ["/proj4"; "/proj4/contexts"; "/proj4/examples"; "/proj4/scripts"];
     d_globs := [] |}.

(** [/proj5]: an example whose document is a JSON array. *)
Definition arrays : Disk :=
  {| d_cwd := "/proj5";
     d_script := "/proj5/scripts/validator.py";
     d_files :=
       [("/proj5/examples/list_example.json", Return (JList [JInt 1; JInt 2]))];
     d_dirs := ["/proj5"; "/proj5/examples"; "/proj5/scripts"];
     d_globs := [("examples/**/*.json", ["examples/list_example.json"])] |}.

(** [/proj6]: an example with a known name that still declares its context
    by the legacy URL. *)
Definition legacy : Disk :=
  {| d_cwd := "/proj6";
     d_script := "/proj6/scripts/validator.py";
     d_files :=
       [("/proj6/contexts/skill_profile_context.jsonld", Return context_body);
        ("/proj6/examples/skill_profile_example.json",
          Return (JDict [("@context",
                           JStr (LEGACY_CONTEXT_URL ++ "skill_profile_context.jsonld"));
                         ("name", JStr "skill")]))];
     d_dirs := ["/proj6"; "/proj6/contexts"; "/proj6/examples"; "/proj6/scripts"];
     d_globs := [("examples/**/*.json", ["examples/skill_profile_example.json"])] |}.

Definition all_checks (ps : list string) : Args :=
  {| paths := ps; run_syntax := false; run_jsonld := false; run_schema := false;
     run_context := false; verbose := false |}.

Definition only_syntax (ps : list string) : Args :=
  {| paths := ps; run_syntax := true; run_jsonld := false; run_schema := false;
     run_context := false; verbose := false |}.

Definition only_schema (ps : list string) : Args :=
  {| paths := ps; run_syntax := false; run_jsonld := false; run_schema := true;
     run_context := false; verbose := false |}.

Definition only_context (ps : list string) : Args :=
  {| paths := ps; run_syntax := false; run_jsonld := false; run_schema := false;
     run_context := true; verbose := false |}.

End Sample.

(** ** The single-pair validator, [scripts/validate_jsonld.py] *)

(** What [print] was called with: a text, or an exception object (printed
    through its own [str]). *)
Inductive printed : Type :=
| Text (s : string)
| Object (e : exn).

(** How the script ends: it runs off its last line, calls [sys.exit], or an
    exception escapes it. *)
Inductive script_end : Type :=
| Finished
| SysExit (code : Z)
| Uncaught (e : exn).

Definition exit_status (e : script_end) : Z :=
  match e with
  | Finished => 0
  | SysExit code => code
  | Uncaught _ => 1
  end%Z.

Section SinglePair.

(** [with open(p) as f: json.load(f)] *)
Variable open_and_load : string -> result json.
(** [jsonschema.validate(instance=data, schema=schema)] *)
Variable validate : json -> json -> result unit.

(** The script, run with [sys.argv = argv]. *)
Definition validate_jsonld_script (argv : list string) : list printed * script_end :=
  match argv with
  | [_; data_path; schema_path] =>
      match open_and_load data_path with
      | Raise e => ([], Uncaught e)
      | Return data =>
          match open_and_load schema_path with
          | Raise e => ([], Uncaught e)
          | Return schema =>
              match validate data schema with
              | Return _ => ([Text "Validation successful!"], Finished)
              | Raise (ValidationError _ _ as e) =>
                  ([Text "Validation failed:"; Object e], SysExit 2)
              | Raise e => ([], Uncaught e)
              end
          end
      end
  | _ =>
      ([Text "Usage: python validate_jsonld.py <data.json> <schema.json>"], SysExit 1)
  end.

End SinglePair.

(** ** Reading aids for the run *)

(** What one path argument contributes to the discovery. *)
Definition found_by (w : World) (path_arg : string) : list string :=
  if path_isfile w path_arg then [PosixPath.abspath (getcwd w) path_arg]
  else if path_isdir w path_arg then
    (glob_recursive w (PosixPath.join path_arg ["**/*.json"])
       ++ glob_recursive w (PosixPath.join path_arg ["**/*.jsonld"]))%list
  else [].

(** The warning printed for a path argument that names nothing. *)
Definition invalid_path_warning (path_arg : string) : string :=
  "Warning: Path '" ++ path_arg ++ "' is not a valid file or directory. Skipping.".

(** The files a run processes. *)
Definition discovered_files (w : World) (args : Args) : list string :=
  PyStr.sorted_set (flat_map (found_by w) (paths args)).

Definition is_dict (v : json) : bool :=
  match v with
  | JDict _ => true
  | _ => false
  end.


(** Each element compares below the next one. *)
Definition strictly_ascending (l : list string) : Prop :=
  Sorted (fun a b => String.compare a b = Lt) l.

(** The arguments with the verbose flag set to [b]. *)
Definition with_verbose (b : bool) (args : Args) : Args :=
  {| paths := paths args;
     run_syntax := run_syntax args;
     run_jsonld := run_jsonld args;
     run_schema := run_schema args;
     run_context := run_context args;
     verbose := b |}.

(** * Facts about the string operations *)

Module PyStrFacts.
Import PyStr.

Lemma append_nil_r (s : string) : s ++ "" = s.
Proof. induction s as [|c s IH]; simpl; [reflexivity | now rewrite IH]. Qed.

Lemma append_assoc (a b c : string) : (a ++ b) ++ c = a ++ (b ++ c).
Proof. induction a as [|x a IH]; simpl; [reflexivity | now rewrite IH]. Qed.

Lemma length_append (a b : string) :
  String.length (a ++ b) = String.length a + String.length b.
Proof. induction a as [|x a IH]; simpl; [reflexivity | now rewrite IH]. Qed.

Lemma substring_all (s : string) : substring 0 (String.length s) s = s.
Proof. induction s as [|c s IH]; simpl; [reflexivity | now rewrite IH]. Qed.

Lemma substring_skip (a b : string) (m : nat) :
  substring (String.length a) m (a ++ b) = substring 0 m b.
Proof. induction a as [|x a IH]; simpl; [reflexivity | exact IH]. Qed.

Lemma substring_take (a b : string) :
  substring 0 (String.length a) (a ++ b) = a.
Proof.
  induction a as [|x a IH]; simpl.
  - destruct b; reflexivity.
  - now rewrite IH.
Qed.

Lemma substring_cut (s : string) (n : nat) :
  n <= String.length s ->
  substring 0 n s ++ substring n (String.length s - n) s = s.
Proof.
  revert n; induction s as [|c s IH]; intros n Hn; simpl in *.
  - destruct n; reflexivity.
  - destruct n as [|n]; simpl.
    + now rewrite substring_all.
    + rewrite IH by lia. reflexivity.
Qed.

(** [s.startswith(p)] holds exactly when [s] is [p] followed by something. *)
Lemma startswith_spec (s p : string) :
  startswith s p = true <-> exists rest, s = p ++ rest.
Proof.
  unfold startswith. revert s; induction p as [|c p IH]; intros s; simpl.
  - split; [intros _; exists s; reflexivity | destruct s; reflexivity].
  - destruct s as [|d s]; simpl.
    + split; [discriminate | intros [r Hr]; discriminate].
    + destruct (ascii_dec c d) as [->|Hcd].
      * rewrite IH. split; intros [r Hr]; exists r; [now rewrite Hr | now inversion Hr].
      * split; [discriminate | intros [r Hr]; inversion Hr; congruence].
Qed.

(** [s.endswith(suf)] holds exactly when [s] is something followed by [suf]. *)
Lemma endswith_spec (s suf : string) :
  endswith s suf = true <-> exists stem, s = stem ++ suf.
Proof.
  unfold endswith. split.
  - intros H. apply andb_true_iff in H as [Hlen Heq].
    apply Nat.leb_le in Hlen. apply String.eqb_eq in Heq.
    exists (substring 0 (String.length s - String.length suf) s).
    rewrite <- (substring_cut s (n := String.length s - String.length suf)) at 1 by lia.
    f_equal. rewrite <- Heq at 3. f_equal. lia.
  - intros [stem ->]. rewrite length_append.
    apply andb_true_iff; split; [apply Nat.leb_le; lia |].
    replace (String.length stem + String.length suf - String.length suf)
      with (String.length stem) by lia.
    rewrite substring_skip, substring_all. apply String.eqb_refl.
Qed.

(** Cutting a suffix off leaves the stem: [(stem + suf)[:-len(suf)] == stem]. *)
Lemma drop_last_append (stem suf : string) :
  drop_last (String.length suf) (stem ++ suf) = stem.
Proof.
  unfold drop_last. rewrite length_append.
  replace (String.length stem + String.length suf - String.length suf)
    with (String.length stem) by lia.
  apply substring_take.
Qed.

Lemma append_inj_r (a b c : string) : a ++ b = a ++ c -> b = c.
Proof. induction a as [|x a IH]; simpl; intros H; [exact H | inversion H; auto]. Qed.

Lemma append_inj_l (a b c : string) : a ++ c = b ++ c -> a = b.
Proof.
  revert b; induction a as [|x a IH]; intros b H.
  - destruct b as [|y b]; [reflexivity |].
    apply (f_equal String.length) in H. simpl in H. rewrite length_append in H. lia.
  - destruct b as [|y b].
    + apply (f_equal String.length) in H. simpl in H. rewrite length_append in H. lia.
    + simpl in H. inversion H. f_equal. auto.
Qed.

(** [needle in s] holds exactly when [needle] occurs somewhere in [s]. *)
Lemma contains_spec (needle s : string) :
  contains needle s = true <-> exists a b, s = a ++ needle ++ b.
Proof.
  induction s as [|c s IH].
  - change (contains needle "") with (startswith "" needle || false).
    rewrite orb_false_r, startswith_spec. split.
    + intros [r Hr]. exists "", r. exact Hr.
    + intros [a [b H]]. destruct a; [exists b; exact H | discriminate].
  - change (contains needle (String c s))
      with (startswith (String c s) needle || contains needle s).
    rewrite orb_true_iff, startswith_spec, IH. split.
    + intros [[r Hr] | [a [b H]]].
      * exists "", r. exact Hr.
      * exists (String c a), b. simpl. now rewrite H.
    + intros [a [b H]]. destruct a as [|x a]; simpl in H.
      * left. exists b. exact H.
      * right. inversion H. exists a, b. reflexivity.
Qed.

Lemma split_nonempty (c : ascii) (s : string) : split c s <> [].
Proof.
  induction s as [|x s IH]; simpl; [discriminate |].
  destruct (Ascii.eqb x c); [discriminate |].
  destruct (split c s); [contradiction | discriminate].
Qed.

End PyStrFacts.

(** * Facts about the path operations *)

Module PosixPathFacts.
Import PyStr PosixPath PyStrFacts.

(** [head + tail == p] for the two halves cut at the last slash. *)
Lemma rsplit_append (p : string) : fst (rsplit p) ++ snd (rsplit p) = p.
Proof.
  induction p as [|c p IH]; [reflexivity |].
  simpl. destruct (rsplit p) as [[|x h] t]; simpl in *.
  - destruct (Ascii.eqb c slash) eqn:E; simpl; [| now rewrite IH].
    apply Ascii.eqb_eq in E. now rewrite E, IH.
  - now rewrite IH.
Qed.

(** The base name is the end of the path. *)
Lemma basename_is_suffix (p : string) : exists head, p = head ++ basename p.
Proof. exists (fst (rsplit p)). symmetry. apply rsplit_append. Qed.

Lemma slash_free_cons (c : ascii) (s : string) :
  contains "/" (String c s) = false -> Ascii.eqb c slash = false /\ contains "/" s = false.
Proof.
  change (contains "/" (String c s))
    with (String.prefix "/" (String c s) || contains "/" s).
  intros H. apply orb_false_iff in H as [H1 H2]. split; [| exact H2].
  simpl in H1. destruct (ascii_dec "/" c) as [<-|Hne].
  - destruct s; discriminate.
  - apply Ascii.eqb_neq. intros ->. apply Hne. reflexivity.
Qed.

Lemma rsplit_slash_free (name : string) :
  contains "/" name = false -> rsplit name = ("", name).
Proof.
  induction name as [|c s IH]; intros H; [reflexivity |].
  apply slash_free_cons in H as [Hc Hs].
  simpl. rewrite (IH Hs), Hc. reflexivity.
Qed.

Lemma rsplit_after_slash (a name : string) :
  contains "/" name = false -> rsplit (a ++ String slash name) = (a ++ "/", name).
Proof.
  intros H. induction a as [|x a IH]; simpl.
  - rewrite (rsplit_slash_free _ H). reflexivity.
  - rewrite IH. destruct a; reflexivity.
Qed.

(** [url.split('/')[-1]] is the base name of [url]. *)
Lemma last_split_basename (s : string) :
  last_item (split slash s) = basename s.
Proof.
  unfold last_item, basename.
  enough (H : match fst (rsplit s) with
              | "" => split slash s = [s] /\ snd (rsplit s) = s
              | _ => exists h x t, split slash s = h :: x :: t
                                   /\ List.last (x :: t) "" = snd (rsplit s)
              end).
  { destruct (fst (rsplit s)).
    - destruct H as [-> ->]. reflexivity.
    - destruct H as (h & x & t & -> & <-). reflexivity. }
  induction s as [|c s IH]; [split; reflexivity |].
  simpl. destruct (rsplit s) as [[|y h] t]; simpl in *.
  - destruct IH as [Hs Ht]. subst t. rewrite Hs.
    destruct (Ascii.eqb c slash); simpl.
    + exists "", s, []. split; reflexivity.
    + split; reflexivity.
  - destruct IH as (h0 & x & t0 & Hs & Hl). rewrite Hs.
    destruct (Ascii.eqb c slash).
    + exists "", h0, (x :: t0). split; [reflexivity | exact Hl].
    + exists (String c h0), x, t0. split; [reflexivity | exact Hl].
Qed.

(** The last segment of [prefix/name] is [name] when [name] has no slash. *)
Lemma last_segment_after_slash (a name : string) :
  contains "/" name = false ->
  last_item (split slash (a ++ String slash name)) = name.
Proof.
  intros H. rewrite last_split_basename. unfold basename.
  now rewrite (rsplit_after_slash a _ H).
Qed.

End PosixPathFacts.

(** * The syntax checker *)

Section SyntaxChecker.

Variable w : World.

Lemma validate_json_syntax_loaded (file_path : string) (data : json) :
  load_json w file_path = Return data ->
  validate_json_syntax w file_path = Return (true, "").
Proof. intros H. unfold validate_json_syntax. now rewrite H. Qed.



End SyntaxChecker.


(** * The schema locator *)

Section SchemaLocator.

Import PyStr PosixPath PyStrFacts.

Variable w : World.

(** C10. A file named exactly [_example.json] or [_example.jsonld] has an
    empty stem, and the schema locator answers "no binding" for it, whatever
    is on disk. *)
Theorem map_example_to_schema_empty_stem (example_file_path base_dir : string) :
  basename example_file_path = "_example.json"
  \/ basename example_file_path = "_example.jsonld" ->
  map_example_to_schema w example_file_path base_dir = None.
Proof.
  unfold map_example_to_schema. intros [-> | ->]; reflexivity.
Qed.

End SchemaLocator.

Lemma map_example_to_schema_empty_stem_witness :
  map_example_to_schema (Sample.world_of Sample.bound) "examples/_example.json" "." = None.
Proof.
  apply map_example_to_schema_empty_stem. left. reflexivity.
Defined.

Section SchemaLocatorCases.

Import PyStr PosixPath PyStrFacts.

Variable w : World.

Lemma append_same_length (a b c d : string) :
  a ++ b = c ++ d -> String.length b = String.length d -> b = d.
Proof.
  revert c; induction a as [|x a IH]; intros c H L.
  - destruct c as [|y c]; [exact H |].
    apply (f_equal String.length) in H. simpl in H. rewrite length_append in H. lia.
  - destruct c as [|y c].
    + apply (f_equal String.length) in H. simpl in H. rewrite length_append in H. lia.
    + simpl in H. inversion H. eauto.
Qed.

(** A name with the JSON-LD suffix does not carry the JSON suffix. *)
Lemma jsonld_suffix_is_not_json_suffix (stem : string) :
  endswith (stem ++ "_example.jsonld") "_example.json" = false.
Proof.
  destruct (endswith (stem ++ "_example.jsonld") "_example.json") eqn:E; [| reflexivity].
  apply endswith_spec in E as [stem' E].
  change "_example.jsonld" with ("_e" ++ "xample.jsonld") in E.
  rewrite <- append_assoc in E.
  apply append_same_length in E; [discriminate | reflexivity].
Qed.

Lemma map_example_to_schema_json (p base_dir stem : string) :
  basename p = stem ++ "_example.json" ->
  map_example_to_schema w p base_dir = bind_stem w base_dir stem.
Proof.
  intros H. unfold map_example_to_schema. rewrite H.
  assert (E : endswith (stem ++ "_example.json") "_example.json" = true)
    by (apply endswith_spec; now exists stem).
  rewrite E, drop_last_append. reflexivity.
Qed.

Lemma map_example_to_schema_jsonld (p base_dir stem : string) :
  basename p = stem ++ "_example.jsonld" ->
  map_example_to_schema w p base_dir = bind_stem w base_dir stem.
Proof.
  intros H. unfold map_example_to_schema. rewrite H.
  rewrite jsonld_suffix_is_not_json_suffix.
  assert (E : endswith (stem ++ "_example.jsonld") "_example.jsonld" = true)
    by (apply endswith_spec; now exists stem).
  rewrite E, drop_last_append. reflexivity.
Qed.

Lemma map_example_to_schema_other (p base_dir : string) :
  endswith (basename p) "_example.json" = false ->
  endswith (basename p) "_example.jsonld" = false ->
  map_example_to_schema w p base_dir = None.
Proof. intros H1 H2. unfold map_example_to_schema. now rewrite H1, H2. Qed.

Lemma map_example_to_schema_stem (p base_dir : string) :
  (endswith (basename p) "_example.json" = false
   /\ endswith (basename p) "_example.jsonld" = false
   /\ map_example_to_schema w p base_dir = None)
  \/ (exists stem,
        (basename p = stem ++ "_example.json" \/ basename p = stem ++ "_example.jsonld")
        /\ map_example_to_schema w p base_dir = bind_stem w base_dir stem).
Proof.
  destruct (endswith (basename p) "_example.json") eqn:E1.
  - right. apply endswith_spec in E1 as [stem E1]. exists stem. split; [now left |].
    now apply map_example_to_schema_json.
  - destruct (endswith (basename p) "_example.jsonld") eqn:E2.
    + right. apply endswith_spec in E2 as [stem E2]. exists stem. split; [now right |].
      now apply map_example_to_schema_jsonld.
    + left. repeat split. now apply map_example_to_schema_other.
Qed.

(** C7, amended. The schema locator answers "no binding" in exactly three
    cases: the base name ends in neither example suffix; the base name is
    one of the two suffixes alone (an empty stem); or the derived path
    [base_dir/schemas/<stem>.schema.json] is not on disk.  For a name with a
    non-empty stem whose derived path exists it returns that path. *)
Theorem map_example_to_schema_cases (p base_dir : string) :
  (map_example_to_schema w p base_dir = None <->
     (endswith (basename p) "_example.json" = false
      /\ endswith (basename p) "_example.jsonld" = false)
     \/ (basename p = "_example.json" \/ basename p = "_example.jsonld")
     \/ (exists stem,
           (basename p = stem ++ "_example.json"
            \/ basename p = stem ++ "_example.jsonld")
           /\ path_exists w (Stated.derived_schema_path base_dir stem) = false))
  /\ (forall stem,
        stem <> "" ->
        basename p = stem ++ "_example.json" \/ basename p = stem ++ "_example.jsonld" ->
        path_exists w (Stated.derived_schema_path base_dir stem) = true ->
        map_example_to_schema w p base_dir
        = Some (Stated.derived_schema_path base_dir stem)).
Proof.
  split; [split |].
  - intros HN. destruct (map_example_to_schema_stem p base_dir)
      as [(E1 & E2 & _) | (stem & Hname & Hmap)]; [now left |].
    right. rewrite Hmap in HN. unfold bind_stem in HN.
    destruct (stem =? "") eqn:Es.
    + apply String.eqb_eq in Es. subst stem. left. exact Hname.
    + right. exists stem. split; [exact Hname |].
      destruct (path_exists w (Stated.derived_schema_path base_dir stem));
        [discriminate | reflexivity].
  - intros [[E1 E2] | [Hname | (stem & Hname & Hex)]].
    + now apply map_example_to_schema_other.
    + unfold map_example_to_schema. destruct Hname as [-> | ->]; reflexivity.
    + assert (Hmap : map_example_to_schema w p base_dir = bind_stem w base_dir stem)
        by (destruct Hname; [now apply map_example_to_schema_json
                            | now apply map_example_to_schema_jsonld]).
      rewrite Hmap. unfold bind_stem. rewrite Hex. now destruct (stem =? "").
  - intros stem Hne Hname Hex.
    assert (Hmap : map_example_to_schema w p base_dir = bind_stem w base_dir stem)
      by (destruct Hname; [now apply map_example_to_schema_json
                          | now apply map_example_to_schema_jsonld]).
    rewrite Hmap. unfold bind_stem. rewrite Hex.
    apply String.eqb_neq in Hne. now rewrite Hne.
Qed.

End SchemaLocatorCases.

Lemma map_example_to_schema_cases_witness :
  map_example_to_schema (Sample.world_of Sample.bound) "examples/foo_example.json" "."
  = Some "./schemas/foo.schema.json".
Proof.
  apply (proj2 (map_example_to_schema_cases (Sample.world_of Sample.bound)
                  "examples/foo_example.json" ".") "foo").
  - discriminate.
  - left. reflexivity.
  - reflexivity.
Defined.

(** C7 as stated fails: [_example.json] ends in a recognized suffix and the
    path derived from its empty stem, [./schemas/.schema.json], is on disk,
    so the locator worded with two cases returns that path; the script
    returns "no binding". *)
Lemma map_example_to_schema_third_case :
  let w := Sample.world_of Sample.bound in
  PyStr.endswith (PosixPath.basename "examples/_example.json") "_example.json" = true
  /\ path_exists w (Stated.derived_schema_path "." "") = true
  /\ Stated.schema_locator w "examples/_example.json" "." = Some "./schemas/.schema.json"
  /\ map_example_to_schema w "examples/_example.json" "." = None.
Proof. repeat split. Qed.

(** * The context resolver *)

Section ContextResolver.

Import PyStr PosixPath PosixPathFacts.

Variable w : World.

Lemma local_document_loader_order (doc_path url : string) :
  resolution_order w (structure_contexts_file w) doc_path url
    (local_document_loader_path w doc_path url).
Proof.
  unfold resolution_order, local_document_loader_path, structure_contexts_file.
  destruct (startswith url LEGACY_CONTEXT_URL);
    destruct (path_exists w url);
    destruct (path_exists w (join (dirname doc_path) [url]));
    repeat split; intros; try discriminate; reflexivity.
Qed.

Lemma local_document_loader_for_check_order (doc_path url : string) :
  resolution_order w (check_contexts_file w) doc_path url
    (local_document_loader_for_check_path w doc_path url).
Proof.
  unfold resolution_order, local_document_loader_for_check_path, check_contexts_file.
  destruct (startswith url LEGACY_CONTEXT_URL);
    destruct (path_exists w url);
    destruct (path_exists w (join (dirname doc_path) [url]));
    repeat split; intros; try discriminate; reflexivity.
Qed.

(** Stripping the legacy prefix and taking the last segment agree on a bare
    file name. *)
Lemma legacy_url_file_name (name : string) :
  contains "/" name = false ->
  last_item (split slash (LEGACY_CONTEXT_URL ++ name)) = name.
Proof.
  intros H.
  change (LEGACY_CONTEXT_URL ++ name)
    with ("https://raw.githubusercontent.com/ModelContext/skill-schema/main/contexts"
            ++ String slash name).
  now apply last_segment_after_slash.
Qed.

(** C5. Both context resolvers of the script (the loader of the structure
    validator and the loader of the context check) choose the local path by
    the same ordered rules, the first applicable one deciding: (1) a
    reference with the legacy URL prefix is looked up by its file name under
    the contexts-root, whatever else exists; (2) otherwise a reference that
    exists as a path is taken as it is; (3) otherwise the reference relative
    to the directory of the referencing document, if that exists; (4)
    otherwise the reference under the contexts-root; (5) and if the chosen
    path does not exist the loader raises an error naming the original
    reference.  In particular a reference that exists both literally and
    under the contexts-root is read from the literal path. *)
Theorem context_resolver_order (doc_path url : string) :
  (resolution_order w (structure_contexts_file w) doc_path url
     (local_document_loader_path w doc_path url)
   /\ loads_or_fails w url (local_document_loader_path w doc_path url)
        (local_document_loader w doc_path url))
  /\ (resolution_order w (check_contexts_file w) doc_path url
        (local_document_loader_for_check_path w doc_path url)
      /\ loads_or_fails w url (local_document_loader_for_check_path w doc_path url)
           (local_document_loader_for_check w doc_path url))
  /\ (forall name, contains "/" name = false ->
        last_item (split slash (LEGACY_CONTEXT_URL ++ name)) = name)
  /\ (startswith url LEGACY_CONTEXT_URL = false ->
      path_exists w url = true ->
      local_document_loader w doc_path url = remote_document w url
      /\ local_document_loader_for_check w doc_path url = remote_document w url).
Proof.
  split; [split | split; [split | split]].
  - apply local_document_loader_order.
  - unfold loads_or_fails, local_document_loader.
    split; intros ->; reflexivity.
  - apply local_document_loader_for_check_order.
  - unfold loads_or_fails, local_document_loader_for_check.
    split; intros ->; reflexivity.
  - apply legacy_url_file_name.
  - intros Hl He. split.
    + unfold local_document_loader, local_document_loader_path.
      now rewrite Hl, He, He.
    + unfold local_document_loader_for_check, local_document_loader_for_check_path.
      now rewrite Hl, He, He.
Qed.

End ContextResolver.

Lemma context_resolver_order_witness :
  let w := Sample.world_of Sample.twofold in
  path_exists w (check_contexts_file w "shared.jsonld") = true
  /\ local_document_loader w "examples/x.jsonld" "shared.jsonld"
     = Return {| contextUrl := None;
                 documentUrl := "file:///proj4/shared.jsonld";
                 document := JDict [("@context", JStr "literal")] |}.
Proof.
  split; [reflexivity |].
  apply (proj2 (proj2 (proj2
           (context_resolver_order (Sample.world_of Sample.twofold)
              "examples/x.jsonld" "shared.jsonld")))); reflexivity.
Defined.

(** * The context conformance checker *)

Section ContextConformance.

Import PyStr PosixPath PyStrFacts.

Variable w : World.

(** The three steps every document passes before its name is looked up. *)
Ltac enter_check Hload Hget Htruthy :=
  unfold check_context_utilization;
  rewrite (validate_json_syntax_loaded w _ Hload);
  cbn [rbind negb];
  rewrite Hload, Hget;
  cbn [rbind];
  rewrite Htruthy;
  cbn [negb].

(** The branch of a document whose name has no entry in the table. *)
Lemma check_context_utilization_unmapped (f base_dir : string) (data ctx : json) :
  load_json w f = Return data ->
  py_get data "@context" = Return ctx ->
  truthy ctx = true ->
  expected_context_name (basename f) = None ->
  check_context_utilization w f base_dir
  = match jsonld_expand w data (local_document_loader_for_check w f) with
    | Return _ =>
        Return (true,
          "WARNING: No specific expected context mapping for " ++ basename f
            ++ ". Document expanded successfully with provided context '"
            ++ format_json w ctx ++ "'.")
    | Raise e_expand =>
        Return (false,
          "WARNING: No specific expected context mapping for " ++ basename f
            ++ ". Expansion with provided context '"
            ++ format_json w ctx ++ "' failed: " ++ exn_str e_expand)
    end.
Proof.
  intros Hload Hget Htruthy Hname. enter_check Hload Hget Htruthy.
  rewrite Hname. reflexivity.
Qed.

(** The branch of a document whose declared context is not the expected one. *)
Lemma check_context_utilization_mismatch (f base_dir : string) (data ctx : json)
    (name : string) :
  load_json w f = Return data ->
  py_get data "@context" = Return ctx ->
  truthy ctx = true ->
  expected_context_name (basename f) = Some name ->
  falsy_path (normalized_actual_context_path w f ctx)
  || differs (normalized_actual_context_path w f ctx) (expected_local_context_path w name)
  = true ->
  check_context_utilization w f base_dir
  = match jsonld_expand w data
            (local_document_loader_for_mismatch w
               (normalized_actual_context_path w f ctx)) with
    | Return _ =>
        Return (false,
          mismatch_message w (expected_local_context_path w name) ctx
            (normalized_actual_context_path w f ctx)
            ++ " However, the document expanded successfully with the "
            ++ "provided (mismatched) context.")
    | Raise e_expand =>
        Return (false,
          mismatch_message w (expected_local_context_path w name) ctx
            (normalized_actual_context_path w f ctx)
            ++ " Additionally, JSON-LD expansion with the provided "
            ++ "(mismatched) context failed: " ++ exn_str e_expand)
    end.
Proof.
  intros Hload Hget Htruthy Hname Hmis. enter_check Hload Hget Htruthy.
  rewrite Hname, Hmis. reflexivity.
Qed.

Lemma mismatch_of_different_path (normalized : option string) (expected : string) :
  normalized <> Some expected ->
  falsy_path normalized || differs normalized expected = true.
Proof.
  intros H. destruct normalized as [s|]; [| reflexivity].
  simpl. destruct (String.eqb_spec s expected) as [-> | _].
  - now contradiction H.
  - apply orb_true_r.
Qed.

Lemma mismatch_message_names_expected (expected : string) (ctx : json)
    (normalized : option string) :
  contains expected (mismatch_message w expected ctx normalized) = true.
Proof.
  apply contains_spec. unfold mismatch_message.
  eexists; eexists; reflexivity.
Qed.

Lemma mismatch_message_names_resolved (expected : string) (ctx : json)
    (normalized : option string) :
  contains (format_opt normalized) (mismatch_message w expected ctx normalized) = true.
Proof.
  apply contains_spec. unfold mismatch_message.
  exists ("Context path mismatch: Expected '" ++ expected ++ "', but found '"
            ++ format_json w ctx ++ "' (resolved to '"), "').".
  rewrite !append_assoc. reflexivity.
Qed.

(** C4. An example with a known name whose declared context normalises to
    a path other than the expected one, or does not normalise at all, fails
    the check.  The message starts with the mismatch report, which names the
    expected path and the resolved one ([None] when there is none); it ends
    in one way when expansion with the declared context succeeds and in
    another, carrying the expansion error, when it fails. *)
Theorem context_mismatch_fails (f base_dir : string) (data ctx : json) (name : string) :
  load_json w f = Return data ->
  py_get data "@context" = Return ctx ->
  truthy ctx = true ->
  expected_context_name (basename f) = Some name ->
  normalized_actual_context_path w f ctx <> Some (expected_local_context_path w name) ->
  let expected := expected_local_context_path w name in
  let normalized := normalized_actual_context_path w f ctx in
  let message := mismatch_message w expected ctx normalized in
  (forall u,
      jsonld_expand w data (local_document_loader_for_mismatch w normalized) = Return u ->
      check_context_utilization w f base_dir
      = Return (false, message
                  ++ " However, the document expanded successfully with the "
                  ++ "provided (mismatched) context."))
  /\ (forall e,
        jsonld_expand w data (local_document_loader_for_mismatch w normalized) = Raise e ->
        check_context_utilization w f base_dir
        = Return (false, message
                    ++ " Additionally, JSON-LD expansion with the provided "
                    ++ "(mismatched) context failed: " ++ exn_str e))
  /\ (exists rest, check_context_utilization w f base_dir = Return (false, message ++ rest))
  /\ contains expected message = true
  /\ contains (format_opt normalized) message = true.
Proof.
  intros Hload Hget Htruthy Hname Hdiff expected normalized message.
  pose proof (check_context_utilization_mismatch f base_dir Hload Hget Htruthy Hname
                (mismatch_of_different_path Hdiff)) as Hcheck.
  fold expected normalized message in Hcheck.
  repeat split.
  - intros u Hu. now rewrite Hcheck, Hu.
  - intros e He. now rewrite Hcheck, He.
  - rewrite Hcheck.
    destruct (jsonld_expand w data (local_document_loader_for_mismatch w normalized));
      eexists; reflexivity.
  - apply mismatch_message_names_expected.
  - apply mismatch_message_names_resolved.
Qed.

(** C9. An example with a known name whose [@context] is truthy but not a
    string (an object, a non-empty array, a number) has no normalised path,
    and the check returns the mismatch failure for it, exactly as for a path
    that differs from the expected one. *)
Theorem non_string_context_is_mismatch (f base_dir : string) (data ctx : json)
    (name : string) :
  load_json w f = Return data ->
  py_get data "@context" = Return ctx ->
  truthy ctx = true ->
  (forall s, ctx <> JStr s) ->
  expected_context_name (basename f) = Some name ->
  normalized_actual_context_path w f ctx = None
  /\ exists rest,
       check_context_utilization w f base_dir
       = Return (false,
           mismatch_message w (expected_local_context_path w name) ctx None ++ rest).
Proof.
  intros Hload Hget Htruthy Hstr Hname.
  assert (Hnone : normalized_actual_context_path w f ctx = None).
  { destruct ctx; try reflexivity. now contradiction (Hstr s). }
  split; [exact Hnone |].
  rewrite (check_context_utilization_mismatch f base_dir Hload Hget Htruthy Hname)
    by (now rewrite Hnone).
  rewrite Hnone.
  destruct (jsonld_expand w data (local_document_loader_for_mismatch w None));
    eexists; reflexivity.
Qed.

Variable args : Args.

(** The context loop counts a file exactly when its check returns failure. *)
Lemma context_step_counts (f : string) (n : nat) (is_valid : bool) (message : string) :
  check_context_utilization w f "." = Return (is_valid, message) ->
  snd (context_step w args f n) = Return (if is_valid then n else n + 1).
Proof.
  intros H. unfold context_step. rewrite H.
  destruct (verbose args), is_valid; cbn [when lift mbind negb andb snd];
    try reflexivity.
  all: destruct (message =? ""); reflexivity.
Qed.

(** C2, amended. For an example whose name has no entry in the table (and
    which parses and declares a truthy [@context]): when expansion with the
    declared context succeeds the check returns success with a warning
    message and the orchestrator counts nothing; when expansion fails the
    check returns failure, with a message that starts with [WARNING:], and
    the orchestrator counts one context error. *)
Theorem unmapped_context_outcomes (f : string) (data ctx : json) (n : nat) :
  load_json w f = Return data ->
  py_get data "@context" = Return ctx ->
  truthy ctx = true ->
  expected_context_name (basename f) = None ->
  (forall u,
      jsonld_expand w data (local_document_loader_for_check w f) = Return u ->
      check_context_utilization w f "."
      = Return (true,
          "WARNING: No specific expected context mapping for " ++ basename f
            ++ ". Document expanded successfully with provided context '"
            ++ format_json w ctx ++ "'.")
      /\ snd (context_step w args f n) = Return n)
  /\ (forall e,
        jsonld_expand w data (local_document_loader_for_check w f) = Raise e ->
        check_context_utilization w f "."
        = Return (false,
            "WARNING: No specific expected context mapping for " ++ basename f
              ++ ". Expansion with provided context '"
              ++ format_json w ctx ++ "' failed: " ++ exn_str e)
        /\ snd (context_step w args f n) = Return (n + 1)).
Proof.
  intros Hload Hget Htruthy Hname.
  pose proof (check_context_utilization_unmapped f "." Hload Hget Htruthy Hname) as Hcheck.
  split.
  - intros u Hu. rewrite Hu in Hcheck. split; [exact Hcheck |].
    now rewrite (context_step_counts f n Hcheck).
  - intros e He. rewrite He in Hcheck. split; [exact Hcheck |].
    now rewrite (context_step_counts f n Hcheck).
Qed.

End ContextConformance.

Lemma context_mismatch_fails_witness :
  check_context_utilization (Sample.world_of Sample.project)
    "/proj/examples/skill_profile_example.json" "."
  = Return (false,
      "Context path mismatch: Expected '/proj/contexts/skill_profile_context.jsonld', "
        ++ "but found '../contexts/repo_profile_context.jsonld' "
        ++ "(resolved to '/proj/contexts/repo_profile_context.jsonld'). "
        ++ "However, the document expanded successfully with the provided "
        ++ "(mismatched) context.").
Proof.
  refine (proj1
    (@context_mismatch_fails (Sample.world_of Sample.project)
       "/proj/examples/skill_profile_example.json" "."
       (JDict [("@context", JStr "../contexts/repo_profile_context.jsonld");
               ("name", JStr "skill")])
       (JStr "../contexts/repo_profile_context.jsonld")
       "skill_profile_context.jsonld" _ _ _ _ _) tt _);
    try reflexivity.
  vm_compute. discriminate.
Defined.

Lemma non_string_context_is_mismatch_witness :
  normalized_actual_context_path (Sample.world_of Sample.project)
    "/proj/examples/repo_profile_example.json"
    (JDict [("name", JStr "http://schema.org/name")]) = None
  /\ exists rest,
       check_context_utilization (Sample.world_of Sample.project)
         "/proj/examples/repo_profile_example.json" "."
       = Return (false,
           mismatch_message (Sample.world_of Sample.project)
             "/proj/contexts/repo_profile_context.jsonld"
             (JDict [("name", JStr "http://schema.org/name")]) None ++ rest).
Proof.
  refine (@non_string_context_is_mismatch (Sample.world_of Sample.project)
            "/proj/examples/repo_profile_example.json" "."
            (JDict [("@context", JDict [("name", JStr "http://schema.org/name")]);
                    ("name", JStr "repo")])
            (JDict [("name", JStr "http://schema.org/name")])
            "repo_profile_context.jsonld" _ _ _ _ _);
    try reflexivity.
  intros s. discriminate.
Defined.

Lemma unmapped_context_outcomes_witness :
  check_context_utilization (Sample.world_of Sample.project)
    "/proj/examples/foo_example.json" "."
  = Return (false,
      "WARNING: No specific expected context mapping for foo_example.json. "
        ++ "Expansion with provided context 'missing_context.jsonld' failed: "
        ++ "Context URL missing_context.jsonld could not be resolved to a local file."
        ++ PyStr.nl ++ "Type: jsonld.LoadContextError")
  /\ snd (context_step (Sample.world_of Sample.project)
            (Sample.only_context ["/proj/examples/foo_example.json"])
            "/proj/examples/foo_example.json" 0)
     = Return 1.
Proof.
  refine (proj2
    (@unmapped_context_outcomes (Sample.world_of Sample.project)
       (Sample.only_context ["/proj/examples/foo_example.json"])
       "/proj/examples/foo_example.json"
       (JDict [("@context", JStr "missing_context.jsonld"); ("name", JStr "foo")])
       (JStr "missing_context.jsonld") 0 _ _ _ _)
    (JsonLdError
       "Context URL missing_context.jsonld could not be resolved to a local file."
       "jsonld.LoadContextError" "") _);
    reflexivity.
Defined.

(** C2 as stated fails: [foo_example.json] has no entry in the table, its
    context reference dangles, and the check returns failure; the run counts
    it as a context error. *)
Lemma unmapped_context_counted_as_error :
  let w := Sample.world_of Sample.project in
  let f := "/proj/examples/foo_example.json" in
  expected_context_name (PosixPath.basename f) = None
  /\ context_fails w f = true
  /\ exists out l,
       main w (Sample.only_context ["examples/foo_example.json"]) = (out, Return (Some l))
       /\ example_files l = [f]
       /\ total_context_errors l = 1.
Proof.
  split; [reflexivity |]. split; [reflexivity |].
  eexists; eexists. split; [reflexivity |]. split; reflexivity.
Qed.

(** * The run orchestrator *)

Section Run.

Import PyStr PosixPath PyStrFacts PosixPathFacts.

Variable w : World.
Variable args : Args.

Lemma mbind_return {A B : Type} (m : M A) (k : A -> M B) (out : list string) (b : B) :
  mbind m k = (out, Return b) ->
  exists o1 a o2, m = (o1, Return a) /\ k a = (o2, Return b) /\ out = (o1 ++ o2)%list.
Proof.
  destruct m as [o1 [a | e]]; simpl; [| discriminate].
  destruct (k a) as [o2 r] eqn:E. intros H. inversion H; subst.
  exists o1, a, o2. auto.
Qed.

(** A loop whose body adds one to the counter exactly on the failing files
    ends with the counter raised by the number of failing files. *)
Lemma for_each_counts (body : string -> nat -> M nat) (fails : string -> bool) :
  (forall f n o m, body f n = (o, Return m) -> m = n + (if fails f then 1 else 0)) ->
  forall files n o m,
    for_each body files n = (o, Return m) -> m = n + count fails files.
Proof.
  intros Hbody. unfold count.
  induction files as [|f files IH]; intros n o m H; simpl in H.
  - inversion H. simpl. lia.
  - apply mbind_return in H as (o1 & n1 & o2 & H1 & H2 & _).
    apply Hbody in H1. apply IH in H2. simpl.
    destruct (fails f); simpl; lia.
Qed.

Lemma syntax_step_counts (f : string) (n : nat) (o : list string) (m : nat) :
  syntax_step w args f n = (o, Return m) ->
  m = n + (if syntax_fails w f then 1 else 0).
Proof.
  unfold syntax_step, syntax_fails.
  destruct (validate_json_syntax w f) as [[[|] msg] | e]; simpl.
  - destruct (verbose args); simpl; intros H; inversion H; lia.
  - intros H; inversion H; lia.
  - discriminate.
Qed.

Lemma jsonld_step_counts (f : string) (n : nat) (o : list string) (m : nat) :
  jsonld_step w args f n = (o, Return m) ->
  m = n + (if jsonld_fails w f then 1 else 0).
Proof.
  unfold jsonld_step, jsonld_fails.
  destruct (validate_jsonld_structure w f) as [[[|] msg] | e]; simpl.
  - destruct (verbose args); simpl; intros H; inversion H; lia.
  - intros H; inversion H; lia.
  - discriminate.
Qed.

Lemma schema_step_counts (f : string) (n : nat) (o : list string) (m : nat) :
  schema_step w args f n = (o, Return m) ->
  m = n + (if schema_fails w f then 1 else 0).
Proof.
  unfold schema_step, schema_fails.
  destruct (map_example_to_schema w f ".") as [schema_file |].
  - destruct (validate_with_schema w f schema_file) as [[[|] msg] | e];
      destruct (verbose args); simpl; intros H; inversion H; lia.
  - destruct (verbose args); simpl; intros H; inversion H; lia.
Qed.

Lemma context_step_counts_failures (f : string) (n : nat) (o : list string) (m : nat) :
  context_step w args f n = (o, Return m) ->
  m = n + (if context_fails w f then 1 else 0).
Proof.
  unfold context_step, context_fails.
  destruct (check_context_utilization w f ".") as [[[|] msg] | e];
    destruct (verbose args); simpl; try destruct (msg =? ""); simpl;
    intros H; inversion H; lia.
Qed.

Lemma syntax_stage_counts (files : list string) (o : list string) (n : nat) :
  syntax_stage w args files = (o, Return n) -> n = count (syntax_fails w) files.
Proof.
  unfold syntax_stage. intros H.
  apply mbind_return in H as (_ & _ & o2 & _ & H & _).
  apply mbind_return in H as (o3 & k & o4 & Hloop & H & _).
  apply for_each_counts with (fails := syntax_fails w) in Hloop;
    [| apply syntax_step_counts].
  rewrite Nat.add_0_l in Hloop.
  destruct (k =? 0)%nat; simpl in H; inversion H; lia.
Qed.

Lemma jsonld_stage_counts (files : list string) (o : list string) (n : nat) :
  jsonld_stage w args files = (o, Return n) -> n = count (jsonld_fails w) files.
Proof.
  unfold jsonld_stage. intros H.
  apply mbind_return in H as (_ & _ & o2 & _ & H & _).
  destruct files as [|f files]; [simpl in H; inversion H; reflexivity |].
  apply mbind_return in H as (o3 & k & o4 & Hloop & H & _).
  apply for_each_counts with (fails := jsonld_fails w) in Hloop;
    [| apply jsonld_step_counts].
  rewrite Nat.add_0_l in Hloop.
  destruct (k =? 0)%nat; simpl in H; inversion H; lia.
Qed.

Lemma schema_stage_counts (files : list string) (o : list string) (n : nat) :
  schema_stage w args files = (o, Return n) -> n = count (schema_fails w) files.
Proof.
  unfold schema_stage. intros H.
  apply mbind_return in H as (_ & _ & o2 & _ & H & _).
  destruct files as [|f files]; [simpl in H; inversion H; reflexivity |].
  apply mbind_return in H as (o3 & k & o4 & Hloop & H & _).
  apply for_each_counts with (fails := schema_fails w) in Hloop;
    [| apply schema_step_counts].
  rewrite Nat.add_0_l in Hloop.
  destruct (k =? 0)%nat; simpl in H; inversion H; lia.
Qed.

Lemma context_stage_counts (files : list string) (o : list string) (n : nat) :
  context_stage w args files = (o, Return n) -> n = count (context_fails w) files.
Proof.
  unfold context_stage. intros H.
  apply mbind_return in H as (_ & _ & o2 & _ & H & _).
  destruct files as [|f files]; [simpl in H; inversion H; reflexivity |].
  apply mbind_return in H as (o3 & k & o4 & Hloop & H & _).
  apply for_each_counts with (fails := context_fails w) in Hloop;
    [| apply context_step_counts_failures].
  rewrite Nat.add_0_l in Hloop.
  destruct (k =? 0)%nat; simpl in H; inversion H; lia.
Qed.

Lemma selected_stage_counts (selected : bool) (stage : M nat) (fails : string -> bool)
    (files o : list string) (n : nat) :
  (forall o' n', stage = (o', Return n') -> n' = count fails files) ->
  (if selected then stage else mret 0) = (o, Return n) ->
  n = if selected then count fails files else 0.
Proof.
  intros Hstage H. destruct selected; [now apply (Hstage o) |].
  now inversion H.
Qed.

(** What a run that reaches its summary leaves behind. *)
Lemma main_returns (out : list string) (l : Locals) :
  main w args = (out, Return (Some l)) ->
  example_files l = filter is_example (files_to_process l)
  /\ jsonld_files l = filter (fun f => endswith f ".jsonld") (files_to_process l)
  /\ (exists before, out = (before ++ summary_lines args l)%list)
  /\ total_syntax_errors l
     = (if selects_syntax args then count (syntax_fails w) (files_to_process l) else 0)
  /\ total_jsonld_errors l
     = (if selects_jsonld args then count (jsonld_fails w) (jsonld_files l) else 0)
  /\ total_schema_errors l
     = (if selects_schema args then count (schema_fails w) (example_files l) else 0)
  /\ total_context_errors l
     = (if selects_context args then count (context_fails w) (example_files l) else 0).
Proof.
  unfold main. intros H.
  apply mbind_return in H as (o1 & _ & o2 & _ & H & ->).
  apply mbind_return in H as (o3 & found & o4 & _ & H & ->).
  cbv zeta in H. destruct (sorted_set found) as [|f0 files] eqn:Ef.
  { simpl in H. inversion H. }
  apply mbind_return in H as (o5 & n1 & o6 & H1 & H & ->).
  apply mbind_return in H as (o7 & n2 & o8 & H2 & H & ->).
  apply mbind_return in H as (o9 & n3 & o10 & H3 & H & ->).
  apply mbind_return in H as (o11 & n4 & o12 & H4 & H & ->).
  apply selected_stage_counts with (fails := syntax_fails w) (files := f0 :: files) in H1;
    [| intros; eapply syntax_stage_counts; eassumption].
  apply selected_stage_counts with (fails := jsonld_fails w)
    (files := filter (fun f => endswith f ".jsonld") (f0 :: files)) in H2;
    [| intros; eapply jsonld_stage_counts; eassumption].
  apply selected_stage_counts with (fails := schema_fails w)
    (files := filter is_example (f0 :: files)) in H3;
    [| intros; eapply schema_stage_counts; eassumption].
  apply selected_stage_counts with (fails := context_fails w)
    (files := filter is_example (f0 :: files)) in H4;
    [| intros; eapply context_stage_counts; eassumption].
  cbv beta iota delta [print_all mbind mret] in H.
  injection H as Hout Hl. subst o12 l n1 n2 n3 n4.
  unfold selects_syntax, selects_jsonld, selects_schema, selects_context.
  split; [reflexivity |]. split; [reflexivity |]. split; [| repeat split].
  exists (o1 ++ o3 ++ o5 ++ o7 ++ o9 ++ o11)%list.
  rewrite app_nil_r, <- !app_assoc. reflexivity.
Qed.

Lemma count_none (fails : string -> bool) (files : list string) :
  (forall f, In f files -> fails f = false) -> count fails files = 0.
Proof.
  unfold count. induction files as [|f files IH]; intros H; [reflexivity |].
  simpl. rewrite (H f (or_introl eq_refl)). apply IH.
  intros g Hg. apply H. now right.
Qed.

(** Whatever flags are given, at least one check is selected. *)
Lemma checks_were_run_always :
  selects_syntax args || selects_jsonld args || selects_schema args
  || selects_context args = true.
Proof.
  unfold selects_syntax, selects_jsonld, selects_schema, selects_context, run_all_checks.
  destruct (run_syntax args), (run_jsonld args), (run_schema args), (run_context args);
    reflexivity.
Qed.

Lemma summary_lines_end (l : Locals) :
  exists before,
    summary_lines args l
    = (before ++ [if no_errors l then PASSED_LINE else FAILED_LINE])%list.
Proof.
  unfold summary_lines, verdict_line.
  fold (selects_syntax args) (selects_jsonld args) (selects_schema args)
    (selects_context args).
  rewrite checks_were_run_always. cbn [negb concat].
  rewrite app_nil_r, !app_assoc. eexists. reflexivity.
Qed.

Lemma summary_lines_schema (l : Locals) :
  selects_schema args = true ->
  In (schema_summary_line (total_schema_errors l) (List.length (example_files l)))
     (summary_lines args l).
Proof.
  intros Hsel. unfold summary_lines.
  fold (selects_schema args). rewrite Hsel.
  apply in_concat. eexists. split.
  - right. right. right. left. reflexivity.
  - left. reflexivity.
Qed.

(** C1, amended. A run of [main] that returns ends with exit status zero,
    whether or not a selected check reported errors.  Each total is zero
    for a check that was not selected and otherwise the number of files on
    which that check returned failure; the run tells a failed validation
    from a passed one only by the closing line of its report. *)
Theorem exit_code_zero_when_main_returns (out : list string) (r : option Locals) :
  main w args = (out, Return r) ->
  exit_code w args = 0%Z
  /\ forall l, r = Some l ->
       total_syntax_errors l
       = (if selects_syntax args then count (syntax_fails w) (files_to_process l) else 0)
       /\ total_jsonld_errors l
          = (if selects_jsonld args then count (jsonld_fails w) (jsonld_files l) else 0)
       /\ total_schema_errors l
          = (if selects_schema args then count (schema_fails w) (example_files l) else 0)
       /\ total_context_errors l
          = (if selects_context args then count (context_fails w) (example_files l)
             else 0)
       /\ List.last out "" = (if no_errors l then PASSED_LINE else FAILED_LINE).
Proof.
  intros H. split; [unfold exit_code; now rewrite H |].
  intros l ->. apply main_returns in H as (_ & _ & [before ->] & H1 & H2 & H3 & H4).
  repeat (split; [assumption |]).
  destruct (summary_lines_end l) as [mid ->].
  rewrite app_assoc. apply last_last.
Qed.

(** C3, amended. When the schema check is selected, the schema line of the
    summary gives the schema errors out of the number of files classified
    as examples, with or without a schema binding; when no example has a
    binding the errors are zero and the line reads "0 error(s) found out of
    N", N being the number of classified examples. *)
Theorem schema_summary_counts_examples (out : list string) (l : Locals) :
  main w args = (out, Return (Some l)) ->
  selects_schema args = true ->
  In (schema_summary_line (total_schema_errors l) (List.length (example_files l))) out
  /\ example_files l = filter is_example (files_to_process l)
  /\ ((forall f, In f (example_files l) -> map_example_to_schema w f "." = None) ->
      total_schema_errors l = 0).
Proof.
  intros H Hsel.
  apply main_returns in H as (Hex & _ & [before ->] & _ & _ & H3 & _).
  split; [| split; [exact Hex |]].
  - apply in_or_app. right. now apply summary_lines_schema.
  - intros Hnone. rewrite H3, Hsel. apply count_none.
    intros f Hf. unfold schema_fails. now rewrite (Hnone f Hf).
Qed.

Lemma suffix_json_marks (f : string) :
  endswith (basename f) "_example.json" = true -> contains "_example.json" f = true.
Proof.
  intros H. apply endswith_spec in H as [stem H].
  destruct (basename_is_suffix f) as [head Hf]. rewrite H in Hf.
  apply contains_spec. exists (head ++ stem), "".
  rewrite Hf, append_assoc. reflexivity.
Qed.

Lemma suffix_jsonld_marks (f : string) :
  endswith (basename f) "_example.jsonld" = true -> contains "_example.json" f = true.
Proof.
  intros H. apply endswith_spec in H as [stem H].
  destruct (basename_is_suffix f) as [head Hf]. rewrite H in Hf.
  apply contains_spec. exists (head ++ stem), "ld".
  rewrite Hf, append_assoc. reflexivity.
Qed.

Lemma jsonld_marker_has_json_marker (f : string) :
  contains "_example.json" f = false -> contains "_example.jsonld" f = false.
Proof.
  intros H. destruct (contains "_example.jsonld" f) eqn:E; [| reflexivity].
  apply contains_spec in E as (a & b & ->).
  assert (C : contains "_example.json" (a ++ "_example.jsonld" ++ b) = true)
    by (apply contains_spec; exists a, ("ld" ++ b); reflexivity).
  congruence.
Qed.

(** C8, amended. The example files of a run are the discovered files that
    satisfy [is_example].  A file satisfies it when the normalised form of
    its path as discovered has a segment named [examples], and also when its
    base name ends in one of the two example suffixes; either condition is
    enough.  A file whose path nowhere contains the text [_example.json] is
    an example exactly when its normalised path has that segment. *)
Theorem example_classification (f : string) :
  (forall out l,
      main w args = (out, Return (Some l)) ->
      (In f (example_files l) <-> In f (files_to_process l) /\ is_example f = true))
  /\ (existsb (String.eqb "examples") (split slash (normpath f)) = true ->
      is_example f = true)
  /\ (endswith (basename f) "_example.json" = true
      \/ endswith (basename f) "_example.jsonld" = true ->
      is_example f = true)
  /\ (contains "_example.json" f = false ->
      is_example f = existsb (String.eqb "examples") (split slash (normpath f))).
Proof.
  split; [| split; [| split]].
  - intros out l H. apply main_returns in H as (Hex & _).
    rewrite Hex. apply filter_In.
  - intros H. unfold is_example. now rewrite H.
  - intros H. unfold is_example.
    assert (C : contains "_example.json" f = true)
      by (destruct H; [now apply suffix_json_marks | now apply suffix_jsonld_marks]).
    rewrite C. now rewrite orb_true_r.
  - intros H. unfold is_example.
    rewrite H, (jsonld_marker_has_json_marker _ H). now rewrite !orb_false_r.
Qed.

End Run.

Lemma exit_code_zero_when_main_returns_witness :
  exit_code (Sample.world_of Sample.project) (Sample.only_syntax ["examples"]) = 0%Z.
Proof.
  refine (proj1 (@exit_code_zero_when_main_returns (Sample.world_of Sample.project)
                   (Sample.only_syntax ["examples"]) _ _ _)).
  reflexivity.
Defined.

(** C1 as stated fails: the syntax check is selected and reports an error
    on [examples/broken.json], one error is counted, and the run ends with
    exit status zero. *)
Lemma errors_reported_exit_zero :
  let w := Sample.world_of Sample.project in
  let a := Sample.only_syntax ["examples"] in
  selects_syntax a = true
  /\ syntax_fails w "examples/broken.json" = true
  /\ (exists out l,
        main w a = (out, Return (Some l))
        /\ In "examples/broken.json" (files_to_process l)
        /\ total_syntax_errors l = 1)
  /\ exit_code w a = 0%Z.
Proof.
  split; [reflexivity |]. split; [reflexivity |]. split; [| reflexivity].
  eexists; eexists. split; [reflexivity |]. split; [| reflexivity].
  left. reflexivity.
Qed.

Lemma schema_summary_counts_examples_witness :
  In "Schema Validation (Examples): 0 error(s) found out of 1 example files processed for schema checks."
     (stdout (Sample.world_of Sample.schemaless) (Sample.only_schema ["examples"])).
Proof.
  refine (proj1 (@schema_summary_counts_examples (Sample.world_of Sample.schemaless)
                   (Sample.only_schema ["examples"]) _
                   {| files_to_process := ["examples/foo_example.json"];
                      example_files := ["examples/foo_example.json"];
                      jsonld_files := [];
                      total_syntax_errors := 0;
                      total_jsonld_errors := 0;
                      total_schema_errors := 0;
                      total_context_errors := 0 |} _ _));
    reflexivity.
Defined.

(** C3 as stated fails: with an empty [schemas/] and one well-formed
    example, the example has no schema binding, and the schema line of the
    summary reads "0 error(s) found out of 1", not "out of 0". *)
Lemma schemaless_summary_counts_the_example :
  let w := Sample.world_of Sample.schemaless in
  let a := Sample.only_schema ["examples"] in
  syntax_fails w "examples/foo_example.json" = false
  /\ map_example_to_schema w "examples/foo_example.json" "." = None
  /\ In (schema_summary_line 0 1) (stdout w a)
  /\ ~ In (schema_summary_line 0 0) (stdout w a).
Proof.
  split; [reflexivity |]. split; [reflexivity |]. split.
  - vm_compute. tauto.
  - vm_compute. intros H.
    repeat (destruct H as [H | H]; [discriminate H |]). exact H.
Qed.

Lemma example_classification_witness :
  is_example "examples/broken.json" = true.
Proof.
  refine (proj1 (proj2 (@example_classification (Sample.world_of Sample.project)
                          (Sample.all_checks ["examples"]) "examples/broken.json")) _).
  reflexivity.
Defined.

(** C8 as stated fails: run from [/srv/examples/site] on the directory
    [data], the script discovers [data/a.json]; its resolved absolute path
    has a segment named [examples], yet the file is not among the
    examples. *)
Lemma relative_path_below_examples_not_classified :
  let w := Sample.world_of Sample.nested in
  let a := Sample.all_checks ["data"] in
  Stated.classified_as_example w "data/a.json" = true
  /\ exists out l,
       main w a = (out, Return (Some l))
       /\ In "data/a.json" (files_to_process l)
       /\ ~ In "data/a.json" (example_files l).
Proof.
  split; [reflexivity |].
  eexists; eexists. split; [reflexivity |]. split; [left; reflexivity |].
  intros H. exact H.
Qed.

(** An exception can escape [main]: a document that is a JSON array has no
    [get] method, the context check raises [AttributeError] outside any
    handler, and the interpreter ends the run with status 1. *)
Example main_raises_on_array_document :
  let w := Sample.world_of Sample.arrays in
  check_context_utilization w "examples/list_example.json" "."
  = Raise (AttributeError "'list' object has no attribute 'get'")
  /\ exit_code w (Sample.only_context ["examples"]) = 1%Z.
Proof. split; reflexivity. Qed.

Example split_segments :
  PyStr.split PyStr.slash "/a/examples/b.json" = [""; "a"; "examples"; "b.json"].
Proof. reflexivity. Qed.

Example normpath_collapses :
  PosixPath.normpath "/a/b/../c/./d//e" = "/a/c/d/e"
  /\ PosixPath.normpath "../../x/.." = "../.."
  /\ PosixPath.normpath "//a/" = "//a"
  /\ PosixPath.normpath "" = ".".
Proof. repeat split. Qed.

Example dirname_basename :
  PosixPath.dirname "/proj/scripts/validator.py" = "/proj/scripts"
  /\ PosixPath.basename "examples/foo_example.json" = "foo_example.json"
  /\ PosixPath.dirname "a.json" = ""
  /\ PosixPath.basename "examples/" = "".
Proof. repeat split. Qed.

Example sorted_set_sorts_and_dedupes :
  PyStr.sorted_set ["b"; "a"; "b"; "c"; "a"] = ["a"; "b"; "c"].
Proof. reflexivity. Qed.

(** * Further properties of the checks *)

Section Outcomes.

Import PyStr PosixPath PyStrFacts PosixPathFacts.

Variable w : World.

Lemma validate_json_syntax_cases (f : string) :
  (exists data, load_json w f = Return data
                /\ validate_json_syntax w f = Return (true, ""))
  \/ (exists e m, load_json w f = Raise e
                  /\ validate_json_syntax w f = Return (false, m) /\ m <> "").
Proof.
  unfold validate_json_syntax.
  destruct (load_json w f) as [data | e]; [left; now exists data |].
  right. destruct e; eexists; eexists; (split; [reflexivity |]);
    (split; [reflexivity | discriminate]).
Qed.

(** X1. A syntax failure is what the other three checks report for the file,
    with the same message. *)
Theorem syntax_failure_propagates (f : string) (m : string) :
  validate_json_syntax w f = Return (false, m) ->
  validate_jsonld_structure w f = Return (false, m)
  /\ (forall schema_file, validate_with_schema w f schema_file = Return (false, m))
  /\ (forall base_dir, check_context_utilization w f base_dir = Return (false, m)).
Proof.
  intros H. unfold validate_jsonld_structure, validate_with_schema,
    check_context_utilization. rewrite H. repeat split.
Qed.

Ltac outcome :=
  eexists; eexists; split;
  [reflexivity | split; intros HH; solve [reflexivity | discriminate HH]].

Lemma validate_jsonld_structure_outcome (f : string) :
  exists b m, validate_jsonld_structure w f = Return (b, m) /\ (b = true <-> m = "").
Proof.
  unfold validate_jsonld_structure.
  destruct (validate_json_syntax_cases f) as [(data & Hl & ->) | (e & m & Hl & -> & Hm)].
  - cbn [rbind negb]. rewrite Hl. cbn [rbind].
    destruct (jsonld_expand w data (local_document_loader w f)) as [u | e];
      [| destruct e]; outcome.
  - cbn [rbind negb]. exists false, m. split; [reflexivity |].
    split; [discriminate | contradiction].
Qed.

Lemma validate_with_schema_outcome (f schema_file : string) :
  exists b m, validate_with_schema w f schema_file = Return (b, m)
              /\ (b = true <-> m = "").
Proof.
  unfold validate_with_schema.
  destruct (validate_json_syntax_cases f) as [(data & Hl & ->) | (e & m & Hl & -> & Hm)].
  - cbn [rbind negb]. rewrite Hl.
    destruct (load_json w schema_file) as [schema | e]; [| destruct e; outcome].
    destruct (jsonschema_validate w data schema) as [u | e]; [| destruct e]; outcome.
  - cbn [rbind negb]. exists false, m. split; [reflexivity |].
    split; [discriminate | contradiction].
Qed.

Lemma normpath_nonempty (p : string) : normpath p <> "".
Proof.
  unfold normpath. destruct (p =? ""); [discriminate |].
  match goal with |- (if ?x =? "" then _ else _) <> _ => destruct (String.eqb_spec x "") end;
    [discriminate | assumption].
Qed.

(** The branch of a document that declares the expected context. *)
Lemma check_context_utilization_expected (f base_dir : string) (data ctx : json)
    (name : string) :
  load_json w f = Return data ->
  py_get data "@context" = Return ctx ->
  truthy ctx = true ->
  expected_context_name (basename f) = Some name ->
  falsy_path (normalized_actual_context_path w f ctx)
  || differs (normalized_actual_context_path w f ctx) (expected_local_context_path w name)
  = false ->
  check_context_utilization w f base_dir
  = match jsonld_expand w data (local_document_loader_for_expected w) with
    | Return _ => Return (true, "")
    | Raise (JsonLdError _ _ _ as e) =>
        Return (false,
          "JSON-LD expansion error (with expected context path '"
            ++ expected_local_context_path w name ++ "'): " ++ exn_str e)
    | Raise e =>
        Return (false,
          "Unexpected error during JSON-LD expansion (with expected "
            ++ "context path '" ++ expected_local_context_path w name ++ "'): "
            ++ exn_str e)
    end.
Proof.
  intros Hload Hget Htruthy Hname Hsame.
  unfold check_context_utilization.
  rewrite (validate_json_syntax_loaded w _ Hload). cbn [rbind negb].
  rewrite Hload, Hget. cbn [rbind]. rewrite Htruthy. cbn [negb].
  rewrite Hname, Hsame. reflexivity.
Qed.

Lemma same_path_iff (normalized : option string) (expected : string) :
  expected <> "" ->
  (falsy_path normalized || differs normalized expected = false
   <-> normalized = Some expected).
Proof.
  intros Hne. destruct normalized as [s |]; simpl; [| split; discriminate].
  split.
  - intros H. apply orb_false_iff in H as [_ H].
    apply negb_false_iff, String.eqb_eq in H. now subst.
  - intros H. inversion H; subst. apply String.eqb_neq in Hne.
    now rewrite Hne, String.eqb_refl.
Qed.

(** Everything the context check can do with a file. *)
Lemma check_context_utilization_cases (f base_dir : string) :
  (exists e m, load_json w f = Raise e
               /\ check_context_utilization w f base_dir = Return (false, m) /\ m <> "")
  \/ (exists data e, load_json w f = Return data
                     /\ py_get data "@context" = Raise e
                     /\ check_context_utilization w f base_dir = Raise e)
  \/ (exists data ctx, load_json w f = Return data
                       /\ py_get data "@context" = Return ctx
                       /\ truthy ctx = false
                       /\ check_context_utilization w f base_dir
                          = Return (false, "Missing '@context' key in the example file."))
  \/ (exists data ctx, load_json w f = Return data
                       /\ py_get data "@context" = Return ctx
                       /\ truthy ctx = true).
Proof.
  destruct (validate_json_syntax_cases f) as [(data & Hl & Hs) | (e & m & Hl & Hs & Hm)].
  - right. unfold check_context_utilization. rewrite Hs. cbn [rbind negb]. rewrite Hl.
    destruct (py_get data "@context") as [ctx | e] eqn:Hg.
    + cbn [rbind]. destruct (truthy ctx) eqn:Ht.
      * right. right. now exists data, ctx.
      * right. left. now exists data, ctx.
    + left. now exists data, e.
  - left. exists e, m. split; [exact Hl |]. split; [| exact Hm].
    unfold check_context_utilization. now rewrite Hs.
Qed.

(** X2. The syntax checker, the structure
    validator and the schema validator never raise, and they report success
    exactly with the empty message; the context check never fails with an
    empty message. *)
Theorem outcome_shape (f : string) :
  (exists b m, validate_json_syntax w f = Return (b, m) /\ (b = true <-> m = ""))
  /\ (exists b m, validate_jsonld_structure w f = Return (b, m) /\ (b = true <-> m = ""))
  /\ (forall schema_file,
        exists b m, validate_with_schema w f schema_file = Return (b, m)
                    /\ (b = true <-> m = ""))
  /\ (forall base_dir m,
        check_context_utilization w f base_dir = Return (false, m) -> m <> "").
Proof.
  split; [| split; [apply validate_jsonld_structure_outcome
                   | split; [intros; apply validate_with_schema_outcome |]]].
  - destruct (validate_json_syntax_cases f) as [(data & _ & ->) | (e & m & _ & -> & Hm)].
    + exists true, "". now split.
    + exists false, m. split; [reflexivity |]. split; [discriminate | contradiction].
  - intros base_dir m H.
    destruct (check_context_utilization_cases f base_dir)
      as [(e & m' & _ & Hc & Hm) | [(data & e & _ & _ & Hc)
          | [(data & ctx & _ & _ & _ & Hc) | (data & ctx & Hl & Hg & Ht)]]].
    + rewrite Hc in H. now inversion H; subst.
    + rewrite Hc in H. discriminate.
    + rewrite Hc in H. inversion H. discriminate.
    + destruct (expected_context_name (basename f)) as [name |] eqn:Hn.
      * destruct (falsy_path (normalized_actual_context_path w f ctx)
                  || differs (normalized_actual_context_path w f ctx)
                       (expected_local_context_path w name)) eqn:Hd.
        -- rewrite (check_context_utilization_mismatch w f base_dir Hl Hg Ht Hn Hd) in H.
           unfold mismatch_message in H.
           destruct (jsonld_expand w data _); inversion H; discriminate.
        -- rewrite (check_context_utilization_expected f base_dir Hl Hg Ht Hn Hd) in H.
           destruct (jsonld_expand w data _) as [u | e]; [discriminate |].
           destruct e; inversion H; discriminate.
      * rewrite (check_context_utilization_unmapped w f base_dir Hl Hg Ht Hn) in H.
        destruct (jsonld_expand w data _); inversion H; discriminate.
Qed.

End Outcomes.

Section Validators.

Import PyStr PosixPath PyStrFacts PosixPathFacts.

Variable w : World.

(** X3. The structure validator passes a file exactly when the file parses and
    the engine expands the parsed document with the validator's loader. *)
Theorem validate_jsonld_structure_passes_iff (f m : string) :
  validate_jsonld_structure w f = Return (true, m)
  <-> m = ""
      /\ exists doc, load_json w f = Return doc
                     /\ jsonld_expand w doc (local_document_loader w f) = Return tt.
Proof.
  unfold validate_jsonld_structure.
  destruct (validate_json_syntax_cases w f) as [(data & Hl & ->) | (e & m' & Hl & -> & _)];
    cbn [rbind negb]; rewrite ?Hl; cbn [rbind].
  - destruct (jsonld_expand w data (local_document_loader w f)) as [[] | e] eqn:He.
    + split.
      * intros H. inversion H. split; [reflexivity |]. now exists data.
      * intros [-> _]. reflexivity.
    + split.
      * destruct e; discriminate.
      * intros [_ (doc & Hd & Hx)]. inversion Hd; subst. congruence.
  - split; [discriminate |]. intros [_ (doc & Hd & _)]. congruence.
Qed.

(** X4. The schema validator passes an example exactly when the example parses,
    the schema file parses and the schema engine accepts the pair. *)
Theorem validate_with_schema_passes_iff (f schema_file m : string) :
  validate_with_schema w f schema_file = Return (true, m)
  <-> m = ""
      /\ exists data schema,
           load_json w f = Return data
           /\ load_json w schema_file = Return schema
           /\ jsonschema_validate w data schema = Return tt.
Proof.
  unfold validate_with_schema.
  destruct (validate_json_syntax_cases w f) as [(data & Hl & ->) | (e & m' & Hl & -> & _)];
    cbn [rbind negb]; rewrite ?Hl.
  - destruct (load_json w schema_file) as [schema | e] eqn:Hs.
    + destruct (jsonschema_validate w data schema) as [[] | e] eqn:Hv.
      * split.
        -- intros H. inversion H. split; [reflexivity |]. now exists data, schema.
        -- intros [-> _]. reflexivity.
      * split.
        -- destruct e; discriminate.
        -- intros [_ (d & sc & Hd & Hsc & Hx)]. inversion Hd; inversion Hsc; subst.
           congruence.
    + split.
      * destruct e; discriminate.
      * intros [_ (d & sc & _ & Hsc & _)]. congruence.
  - split; [discriminate |]. intros [_ (d & sc & Hd & _)]. congruence.
Qed.

(** X5. When the example parses and the schema file cannot be read or parsed,
    the schema validator fails with a message that names the schema file. *)
Theorem schema_load_failure_names_schema (f schema_file : string) (data : json) (e : exn) :
  load_json w f = Return data ->
  load_json w schema_file = Raise e ->
  exists m, validate_with_schema w f schema_file = Return (false, m)
            /\ contains schema_file m = true.
Proof.
  intros Hl Hs. unfold validate_with_schema.
  rewrite (validate_json_syntax_loaded w _ Hl). cbn [rbind negb]. rewrite Hl, Hs.
  destruct e; eexists; (split; [reflexivity |]); apply contains_spec.
  2: { exists "Schema file not found: ", "". now rewrite append_nil_r. }
  1: { eexists "Syntax error in schema file ", _. reflexivity. }
  all: eexists "Error reading schema file ", _; reflexivity.
Qed.

(** X6. A document without [@context], or with a falsy one (null, an empty
    string, an empty object or array, zero, false), fails the context check
    with the missing-key message, whatever the name of the file. *)
Theorem missing_context_fails (f base_dir : string) (data ctx : json) :
  load_json w f = Return data ->
  py_get data "@context" = Return ctx ->
  truthy ctx = false ->
  check_context_utilization w f base_dir
  = Return (false, "Missing '@context' key in the example file.").
Proof.
  intros Hl Hg Ht. unfold check_context_utilization.
  rewrite (validate_json_syntax_loaded w _ Hl). cbn [rbind negb].
  rewrite Hl, Hg. cbn [rbind]. now rewrite Ht.
Qed.

Lemma py_get_raises (data : json) (key : string) (e : exn) :
  py_get data key = Raise e
  <-> is_dict data = false
      /\ e = AttributeError ("'" ++ type_name data ++ "' object has no attribute 'get'").
Proof.
  destruct data; simpl; split;
    try (intros H; inversion H; now split);
    try (intros [_ ->]; reflexivity);
    try discriminate; intros [H _]; discriminate.
Qed.

Lemma check_context_utilization_raise_inv (f base_dir : string) (e : exn) :
  check_context_utilization w f base_dir = Raise e ->
  exists data,
    load_json w f = Return data
    /\ is_dict data = false
    /\ e = AttributeError ("'" ++ type_name data ++ "' object has no attribute 'get'").
Proof.
  intros H.
  destruct (check_context_utilization_cases w f base_dir)
    as [(e' & m' & _ & Hc & _) | [(data & e' & Hl & Hg & Hc)
        | [(data & ctx & _ & _ & _ & Hc) | (data & ctx & Hl & Hg & Ht)]]];
    try congruence.
  + rewrite Hc in H. inversion H; subst. apply py_get_raises in Hg as [Hd He].
    now exists data.
  + exfalso.
    destruct (expected_context_name (basename f)) as [name |] eqn:Hn.
    * destruct (falsy_path (normalized_actual_context_path w f ctx)
                || differs (normalized_actual_context_path w f ctx)
                     (expected_local_context_path w name)) eqn:Hd.
      -- rewrite (check_context_utilization_mismatch w f base_dir Hl Hg Ht Hn Hd) in H.
         destruct (jsonld_expand w data _); discriminate.
      -- rewrite (check_context_utilization_expected w f base_dir Hl Hg Ht Hn Hd) in H.
         destruct (jsonld_expand w data _) as [u | e0]; [discriminate |].
         destruct e0; discriminate.
    * rewrite (check_context_utilization_unmapped w f base_dir Hl Hg Ht Hn) in H.
      destruct (jsonld_expand w data _); discriminate.
Qed.

Lemma check_context_utilization_raise_intro (f base_dir : string) (data : json) :
  load_json w f = Return data ->
  is_dict data = false ->
  check_context_utilization w f base_dir
  = Raise (AttributeError ("'" ++ type_name data ++ "' object has no attribute 'get'")).
Proof.
  intros Hl Hd. unfold check_context_utilization.
  rewrite (validate_json_syntax_loaded w _ Hl). cbn [rbind negb]. rewrite Hl.
  assert (Hg : py_get data "@context"
               = Raise (AttributeError
                          ("'" ++ type_name data ++ "' object has no attribute 'get'")))
    by (now apply py_get_raises).
  now rewrite Hg.
Qed.

(** X7. The context check lets an exception escape exactly for a file that
    parses to something other than an object, and the exception is the
    [AttributeError] of the missing [get] method. *)
Theorem check_context_utilization_raises_iff (f base_dir : string) (e : exn) :
  check_context_utilization w f base_dir = Raise e
  <-> exists data,
        load_json w f = Return data
        /\ is_dict data = false
        /\ e = AttributeError ("'" ++ type_name data ++ "' object has no attribute 'get'").
Proof.
  split.
  - apply check_context_utilization_raise_inv.
  - intros (data & Hl & Hd & ->).
    now apply check_context_utilization_raise_intro.
Qed.

(** X8. The context check returns success in exactly two ways: for a name
    without an entry in the table, when expansion with the declared context
    succeeds (the message is then the warning); and for a name in the table,
    when the declared context normalises to the expected path and expansion
    succeeds (the message is then empty). *)
Theorem check_context_utilization_passes_iff (f base_dir m : string) :
  check_context_utilization w f base_dir = Return (true, m)
  <-> exists data ctx,
        load_json w f = Return data
        /\ py_get data "@context" = Return ctx
        /\ truthy ctx = true
        /\ ((expected_context_name (basename f) = None
             /\ jsonld_expand w data (local_document_loader_for_check w f) = Return tt
             /\ m = "WARNING: No specific expected context mapping for " ++ basename f
                      ++ ". Document expanded successfully with provided context '"
                      ++ format_json w ctx ++ "'.")
            \/ (exists name,
                  expected_context_name (basename f) = Some name
                  /\ normalized_actual_context_path w f ctx
                     = Some (expected_local_context_path w name)
                  /\ jsonld_expand w data (local_document_loader_for_expected w)
                     = Return tt
                  /\ m = "")).
Proof.
  split.
  - intros H.
    destruct (check_context_utilization_cases w f base_dir)
      as [(e' & m' & _ & Hc & _) | [(data & e' & Hl & Hg & Hc)
          | [(data & ctx & _ & _ & _ & Hc) | (data & ctx & Hl & Hg & Ht)]]];
      try congruence.
    exists data, ctx. repeat (split; [assumption |]).
    destruct (expected_context_name (basename f)) as [name |] eqn:Hn.
    + right. exists name. split; [reflexivity |].
      destruct (falsy_path (normalized_actual_context_path w f ctx)
                || differs (normalized_actual_context_path w f ctx)
                     (expected_local_context_path w name)) eqn:Hd.
      * rewrite (check_context_utilization_mismatch w f base_dir Hl Hg Ht Hn Hd) in H.
        destruct (jsonld_expand w data _); discriminate.
      * rewrite (check_context_utilization_expected w f base_dir Hl Hg Ht Hn Hd) in H.
        apply same_path_iff in Hd; [| apply normpath_nonempty].
        split; [exact Hd |].
        destruct (jsonld_expand w data _) as [[] | e0].
        -- inversion H. now split.
        -- destruct e0; discriminate.
    + left. split; [reflexivity |].
      rewrite (check_context_utilization_unmapped w f base_dir Hl Hg Ht Hn) in H.
      destruct (jsonld_expand w data _) as [[] | e0]; [| discriminate].
      inversion H. now split.
  - intros (data & ctx & Hl & Hg & Ht & [(Hn & Hx & ->) | (name & Hn & Hp & Hx & ->)]).
    + rewrite (check_context_utilization_unmapped w f base_dir Hl Hg Ht Hn), Hx.
      reflexivity.
    + rewrite (check_context_utilization_expected w f base_dir Hl Hg Ht Hn), Hx;
        [reflexivity |].
      apply same_path_iff; [apply normpath_nonempty | exact Hp].
Qed.

Lemma expected_names_are_bare (file_name name : string) :
  expected_context_name file_name = Some name -> contains "/" name = false.
Proof.
  unfold expected_context_name.
  destruct (file_name =? "code_classification_example.json");
    [intros H; inversion H; reflexivity |].
  destruct (file_name =? "repo_profile_example.json");
    [intros H; inversion H; reflexivity |].
  destruct (file_name =? "skill_profile_example.json");
    [intros H; inversion H; reflexivity | discriminate].
Qed.

(** X9. An example with a known name that declares the expected context by its
    legacy URL is not a mismatch: when the URL names nothing relative to the
    example or under the contexts directory, it is rewritten to the expected
    local path, and the check then stands or falls with the expansion. *)
Theorem legacy_url_is_expected_path (f base_dir : string) (data : json) (name : string) :
  expected_context_name (basename f) = Some name ->
  path_exists w (normpath (join (dirname f) [LEGACY_CONTEXT_URL ++ name])) = false ->
  path_exists w (normpath (join (PROJECT_ROOT_FOR_CONTEXTS w)
                             ["contexts"; LEGACY_CONTEXT_URL ++ name])) = false ->
  normalized_actual_context_path w f (JStr (LEGACY_CONTEXT_URL ++ name))
  = Some (expected_local_context_path w name)
  /\ (load_json w f = Return data ->
      py_get data "@context" = Return (JStr (LEGACY_CONTEXT_URL ++ name)) ->
      (check_context_utilization w f base_dir = Return (true, "")
       <-> jsonld_expand w data (local_document_loader_for_expected w) = Return tt)).
Proof.
  intros Hn H1 H2.
  assert (Hp : normalized_actual_context_path w f (JStr (LEGACY_CONTEXT_URL ++ name))
               = Some (expected_local_context_path w name)).
  { unfold normalized_actual_context_path.
    replace (isabs (LEGACY_CONTEXT_URL ++ name)) with false by reflexivity.
    rewrite H1, H2.
    assert (Hs : startswith (LEGACY_CONTEXT_URL ++ name) LEGACY_CONTEXT_URL = true)
      by (apply startswith_spec; now exists name).
    rewrite Hs, (legacy_url_file_name name (expected_names_are_bare _ Hn)). reflexivity. }
  split; [exact Hp |].
  intros Hl Hg.
  assert (Ht : truthy (JStr (LEGACY_CONTEXT_URL ++ name)) = true) by reflexivity.
  rewrite (check_context_utilization_expected w f base_dir Hl Hg Ht Hn)
    by (apply same_path_iff; [apply normpath_nonempty | exact Hp]).
  destruct (jsonld_expand w data (local_document_loader_for_expected w)) as [[] | e].
  - split; reflexivity.
  - split; [destruct e |]; discriminate.
Qed.

End Validators.

(** * Further properties of the run *)

Section SortedSet.

Import PyStr.

Lemma insert_unique_in (x y : string) (l : list string) :
  In y (insert_unique x l) <-> y = x \/ In y l.
Proof.
  induction l as [|z l IH]; simpl.
  - intuition.
  - destruct (String.compare x z) eqn:E; simpl.
    + apply String.compare_eq_iff in E. subst. intuition.
    + intuition.
    + rewrite IH. intuition.
Qed.

Lemma sorted_set_in (y : string) (l : list string) :
  In y (sorted_set l) <-> In y l.
Proof.
  unfold sorted_set. induction l as [|x l IH]; simpl; [reflexivity |].
  rewrite insert_unique_in, IH. intuition.
Qed.

Lemma compare_gt_lt (x y : string) : String.compare x y = Gt -> String.compare y x = Lt.
Proof.
  intros H. rewrite String.compare_antisym, H. reflexivity.
Qed.

Lemma insert_unique_ascending (x : string) (l : list string) :
  strictly_ascending l -> strictly_ascending (insert_unique x l).
Proof.
  unfold strictly_ascending. induction l as [|z l IH]; intros H; simpl.
  - repeat constructor.
  - destruct (String.compare x z) eqn:E.
    + exact H.
    + constructor; [exact H | constructor; exact E].
    + inversion H as [| ? ? Hl Hz]; subst. constructor; [now apply IH |].
      destruct l as [|u l]; simpl.
      * constructor. now apply compare_gt_lt.
      * destruct (String.compare x u); constructor;
          try (now apply compare_gt_lt); now inversion Hz.
Qed.

Lemma sorted_set_ascending (l : list string) : strictly_ascending (sorted_set l).
Proof.
  unfold sorted_set. induction l as [|x l IH]; simpl.
  - constructor.
  - now apply insert_unique_ascending.
Qed.

Lemma compare_lt_trans (x y z : string) :
  String.compare x y = Lt -> String.compare y z = Lt -> String.compare x z = Lt.
Proof.
  intros H1 H2. apply String_as_OT.cmp_lt.
  apply String_as_OT.lt_trans with y; now apply String_as_OT.cmp_lt.
Qed.

Lemma strictly_ascending_nodup (l : list string) : strictly_ascending l -> NoDup l.
Proof.
  unfold strictly_ascending. intros H.
  apply Sorted_StronglySorted in H; [| intros x y z; apply compare_lt_trans].
  induction H as [| x l Hl IH Hx]; constructor; [| exact IH].
  intros Hin. rewrite Forall_forall in Hx. specialize (Hx x Hin).
  assert (E : String.compare x x = Eq) by now apply String_as_OT.cmp_eq.
  congruence.
Qed.

End SortedSet.

Section Results.

Import PyStr PosixPath PyStrFacts.

Variable w : World.

Lemma snd_mbind {A B : Type} (m : M A) (k : A -> M B) :
  snd (mbind m k) = match snd m with
                    | Return a => snd (k a)
                    | Raise e => Raise e
                    end.
Proof.
  destruct m as [o [a | e]]; simpl; [| reflexivity].
  now destruct (k a).
Qed.

Lemma snd_when (b : bool) (line : string) : snd (when b (print line)) = Return tt.
Proof. now destruct b. Qed.

Lemma snd_discover (ps acc : list string) :
  snd (for_each (discover w) ps acc) = Return (acc ++ flat_map (found_by w) ps)%list.
Proof.
  revert acc; induction ps as [|p ps IH]; intros acc; simpl.
  - now rewrite app_nil_r.
  - rewrite snd_mbind. unfold discover at 1, found_by at 1.
    destruct (path_isfile w p); [| destruct (path_isdir w p)]; simpl;
      rewrite IH; now rewrite <- ?app_assoc, ?app_nil_r.
Qed.

Variable args : Args.

Lemma snd_header : snd (print_verbose_header w args) = Return tt.
Proof.
  unfold print_verbose_header.
  destruct (verbose args); [| reflexivity]. unfold when.
  destruct (run_all_checks args); [reflexivity |].
  destruct (run_syntax args), (run_jsonld args), (run_schema args), (run_context args);
    reflexivity.
Qed.

Lemma snd_syntax_step (f : string) (n : nat) :
  snd (syntax_step w args f n) = Return (n + (if syntax_fails w f then 1 else 0)).
Proof.
  unfold syntax_step, syntax_fails.
  destruct (validate_json_syntax_cases w f) as [(d & _ & ->) | (e & m & _ & -> & _)].
  - destruct (verbose args); simpl; now rewrite Nat.add_0_r.
  - reflexivity.
Qed.

Lemma snd_jsonld_step (f : string) (n : nat) :
  snd (jsonld_step w args f n) = Return (n + (if jsonld_fails w f then 1 else 0)).
Proof.
  unfold jsonld_step, jsonld_fails.
  destruct (validate_jsonld_structure_outcome w f) as (b & m & -> & _).
  destruct b; [| reflexivity].
  destruct (verbose args); simpl; now rewrite Nat.add_0_r.
Qed.

Lemma snd_schema_step (f : string) (n : nat) :
  snd (schema_step w args f n) = Return (n + (if schema_fails w f then 1 else 0)).
Proof.
  unfold schema_step, schema_fails.
  destruct (map_example_to_schema w f ".") as [s |].
  - destruct (validate_with_schema_outcome w f s) as (b & m & -> & _).
    destruct b, (verbose args); simpl; now rewrite ?Nat.add_0_r.
  - destruct (verbose args); simpl; now rewrite Nat.add_0_r.
Qed.

Lemma snd_counting_loop (body : string -> nat -> M nat) (fails : string -> bool) :
  (forall f n, snd (body f n) = Return (n + (if fails f then 1 else 0))) ->
  forall files n, snd (for_each body files n) = Return (n + count fails files).
Proof.
  intros Hbody. unfold count. induction files as [|f files IH]; intros n; simpl.
  - now rewrite Nat.add_0_r.
  - rewrite snd_mbind, Hbody, IH. f_equal.
    destruct (fails f); simpl; lia.
Qed.

Lemma snd_syntax_stage (files : list string) :
  snd (syntax_stage w args files) = Return (count (syntax_fails w) files).
Proof.
  unfold syntax_stage. rewrite snd_mbind. cbn [print snd].
  rewrite snd_mbind, (snd_counting_loop _ _ snd_syntax_step). cbn [Nat.add].
  rewrite snd_mbind. now destruct (_ =? 0)%nat.
Qed.

Lemma snd_jsonld_stage (files : list string) :
  snd (jsonld_stage w args files) = Return (count (jsonld_fails w) files).
Proof.
  unfold jsonld_stage. rewrite snd_mbind. cbn [print snd].
  destruct files as [|f files]; [reflexivity |].
  rewrite snd_mbind, (snd_counting_loop _ _ snd_jsonld_step). cbn [Nat.add].
  rewrite snd_mbind. now destruct (_ =? 0)%nat.
Qed.

Lemma snd_schema_stage (files : list string) :
  snd (schema_stage w args files) = Return (count (schema_fails w) files).
Proof.
  unfold schema_stage. rewrite snd_mbind. cbn [print snd].
  destruct files as [|f files]; [reflexivity |].
  rewrite snd_mbind, (snd_counting_loop _ _ snd_schema_step). cbn [Nat.add].
  rewrite snd_mbind. now destruct (_ =? 0)%nat.
Qed.

End Results.

Section RunResult.

Import PyStr PosixPath PyStrFacts.

Variable w : World.


Lemma snd_context_step (args : Args) (f : string) (n : nat) :
  snd (context_step w args f n)
  = match check_context_utilization w f "." with
    | Return (is_valid, _) => Return (if is_valid then n else n + 1)
    | Raise e => Raise e
    end.
Proof.
  destruct (check_context_utilization w f ".") as [[b m] | e] eqn:H.
  - now apply context_step_counts with (message := m).
  - unfold context_step. rewrite H. now destruct (verbose args).
Qed.

Lemma snd_context_loop_verbose (a1 a2 : Args) (files : list string) (n : nat) :
  snd (for_each (context_step w a1) files n) = snd (for_each (context_step w a2) files n).
Proof.
  revert n; induction files as [|f files IH]; intros n; [reflexivity |].
  simpl. rewrite !snd_mbind, !snd_context_step.
  destruct (check_context_utilization w f ".") as [[b m] | e]; [apply IH | reflexivity].
Qed.


Lemma snd_context_stage_verbose (a1 a2 : Args) (files : list string) :
  snd (context_stage w a1 files) = snd (context_stage w a2 files).
Proof.
  unfold context_stage. rewrite !snd_mbind. cbn [print snd].
  destruct files as [|f files]; [reflexivity |].
  rewrite !snd_mbind, (snd_context_loop_verbose a1 a2).
  destruct (snd (for_each (context_step w a2) (f :: files) 0)); [| reflexivity].
  rewrite !snd_mbind. now destruct (_ =? 0)%nat.
Qed.


Lemma snd_selected (c : bool) (stage : M nat) (n : nat) :
  snd stage = Return n ->
  snd (if c then stage else mret 0) = Return (if c then n else 0).
Proof. intros H. now destruct c. Qed.

(** The result of a run, stage by stage: only the context stage can end it
    early. *)
Lemma snd_main (args : Args) :
  snd (main w args)
  = match discovered_files w args with
    | [] => Return None
    | f0 :: rest =>
        let files := f0 :: rest in
        match (if selects_context args then
                 snd (context_stage w args (filter is_example files))
               else Return 0) with
        | Raise e => Raise e
        | Return context_errors =>
            Return (Some
              {| files_to_process := files;
                 example_files := filter is_example files;
                 jsonld_files := filter (fun f => endswith f ".jsonld") files;
                 total_syntax_errors :=
                   if selects_syntax args then count (syntax_fails w) files else 0;
                 total_jsonld_errors :=
                   if selects_jsonld args then
                     count (jsonld_fails w) (filter (fun f => endswith f ".jsonld") files)
                   else 0;
                 total_schema_errors :=
                   if selects_schema args then
                     count (schema_fails w) (filter is_example files)
                   else 0;
                 total_context_errors := context_errors |})
        end
    end.
Proof.
  unfold main. rewrite snd_mbind, snd_header, snd_mbind, snd_discover.
  cbn [app]. change (sorted_set (flat_map (found_by w) (paths args)))
    with (discovered_files w args).
  cbv zeta. destruct (discovered_files w args) as [|f0 rest]; [reflexivity |].
  rewrite snd_mbind, (@snd_selected _ _ _ (snd_syntax_stage w args _)).
  rewrite snd_mbind, (@snd_selected _ _ _ (snd_jsonld_stage w args _)).
  rewrite snd_mbind, (@snd_selected _ _ _ (snd_schema_stage w args _)).
  rewrite snd_mbind. unfold selects_context, selects_syntax, selects_jsonld, selects_schema.
  destruct (run_all_checks args || run_context args).
  - destruct (snd (context_stage w args (filter is_example (f0 :: rest))));
      reflexivity.
  - reflexivity.
Qed.

End RunResult.

Section RunProperties.

Import PyStr PosixPath PyStrFacts.

Variable w : World.
Variable args : Args.


(** X11. The files a run processes are those found through its path arguments:
    the absolute path of every argument that is a file, and what the two
    recursive globs return for every argument that is a directory.  The list
    is in strictly ascending order, so no file is processed twice. *)
Theorem processed_files_are_discovered (out : list string) (l : Locals) :
  main w args = (out, Return (Some l)) ->
  files_to_process l = discovered_files w args
  /\ strictly_ascending (files_to_process l)
  /\ NoDup (files_to_process l)
  /\ forall f, In f (files_to_process l)
               <-> exists path_arg, In path_arg (paths args) /\ In f (found_by w path_arg).
Proof.
  intros H. apply (f_equal snd) in H. rewrite snd_main in H. cbn [snd] in H.
  assert (Hl : files_to_process l = discovered_files w args).
  { destruct (discovered_files w args) as [|f0 rest]; [discriminate |].
    cbv zeta in H.
    destruct (if selects_context args then _ else _); [| discriminate].
    inversion H. reflexivity. }
  rewrite Hl. unfold discovered_files.
  split; [reflexivity |]. split; [apply sorted_set_ascending |].
  split; [apply strictly_ascending_nodup, sorted_set_ascending |].
  intros f. rewrite sorted_set_in. apply in_flat_map.
Qed.

Lemma discover_nothing (ps acc : list string) :
  (forall p, In p ps -> path_isfile w p = false /\ path_isdir w p = false) ->
  for_each (discover w) ps acc
  = (map invalid_path_warning ps, Return acc).
Proof.
  induction ps as [|p ps IH]; intros H; [reflexivity |].
  cbn [for_each map]. unfold discover at 1.
  destruct (H p (or_introl eq_refl)) as [-> ->].
  cbn [mbind print mret List.app].
  rewrite IH by (intros q Hq; apply H; now right). reflexivity.
Qed.

(** X12. When no path argument is a file or a directory, the run warns about
    each argument in turn, reports that it found no file, and returns
    without running a check or printing a summary. *)
Theorem nothing_to_validate :
  (forall p, In p (paths args) -> path_isfile w p = false /\ path_isdir w p = false) ->
  main w args
  = ((fst (print_verbose_header w args)
        ++ map invalid_path_warning (paths args)
        ++ ["No files found to validate based on the provided paths."])%list,
     Return None).
Proof.
  intros H. unfold main.
  rewrite (surjective_pairing (print_verbose_header w args)), snd_header.
  rewrite (discover_nothing _ [] H). reflexivity.
Qed.

Lemma count_le_length (fails : string -> bool) (files : list string) :
  count fails files <= List.length files.
Proof. apply filter_length_le. Qed.

(** X13. In the summary of a run no error count exceeds the number of files the
    line reports as checked, and the JSON-LD files and the examples are
    drawn from the processed files. *)
Theorem totals_within_denominators (out : list string) (l : Locals) :
  main w args = (out, Return (Some l)) ->
  total_syntax_errors l <= List.length (files_to_process l)
  /\ total_jsonld_errors l <= List.length (jsonld_files l)
  /\ total_schema_errors l <= List.length (example_files l)
  /\ total_context_errors l <= List.length (example_files l)
  /\ List.length (jsonld_files l) <= List.length (files_to_process l)
  /\ List.length (example_files l) <= List.length (files_to_process l).
Proof.
  intros H. apply main_returns in H as (He & Hj & _ & H1 & H2 & H3 & H4).
  rewrite H1, H2, H3, H4.
  repeat split;
    try (match goal with |- (if ?c then _ else _) <= _ => destruct c end;
         [apply count_le_length | lia]).
  - rewrite Hj. apply filter_length_le.
  - rewrite He. apply filter_length_le.
Qed.

(** X14. The verbose flag changes what is printed and nothing else: the files,
    the error totals and the exit status of the run are the same with and
    without it. *)
Theorem verbose_changes_output_only (b : bool) :
  snd (main w (with_verbose b args)) = snd (main w args)
  /\ exit_code w (with_verbose b args) = exit_code w args.
Proof.
  assert (H : snd (main w (with_verbose b args)) = snd (main w args)).
  { rewrite !snd_main.
    change (discovered_files w (with_verbose b args)) with (discovered_files w args).
    change (selects_context (with_verbose b args)) with (selects_context args).
    change (selects_syntax (with_verbose b args)) with (selects_syntax args).
    change (selects_jsonld (with_verbose b args)) with (selects_jsonld args).
    change (selects_schema (with_verbose b args)) with (selects_schema args).
    destruct (discovered_files w args) as [|f0 rest]; [reflexivity |].
    cbv zeta. now rewrite (snd_context_stage_verbose w (with_verbose b args) args). }
  split; [exact H |]. unfold exit_code. now rewrite H.
Qed.

End RunProperties.

Section Classification.

Import PyStr PosixPath PyStrFacts.

(** X15. The third test of the classification never decides: a path that
    contains [_example.jsonld] contains [_example.json], so a file is an
    example exactly when its normalised path has a segment [examples] or the
    path contains [_example.json]. *)
Theorem is_example_two_tests (f : string) :
  is_example f
  = existsb (String.eqb "examples") (split slash (normpath f))
    || contains "_example.json" f.
Proof.
  unfold is_example. destruct (contains "_example.json" f) eqn:E.
  - now rewrite orb_true_r.
  - now rewrite (jsonld_marker_has_json_marker _ E), orb_false_r.
Qed.

Lemma no_checks_line_absent (args : Args) (l : Locals) :
  ~ In "No specific validation checks were selected to run." (summary_lines args l).
Proof.
  unfold summary_lines, verdict_line.
  fold (selects_syntax args) (selects_jsonld args) (selects_schema args)
    (selects_context args).
  rewrite checks_were_run_always. cbn [negb].
  intros H. apply in_concat in H as (ys & Hys & Hin).
  cbn [In] in Hys.
  repeat destruct Hys as [<- | Hys]; try contradiction;
    repeat match goal with
           | H : In _ (if ?c then _ else _) |- _ => destruct c
           end;
    cbn [In] in Hin;
    repeat destruct Hin as [Hin | Hin]; try contradiction; try discriminate Hin.
  destruct (no_errors l); discriminate Hin.
Qed.

(** X16. The summary never says that no check was selected: a run without flags
    selects all four checks, so the branch that prints that line is dead. *)
Theorem no_checks_line_is_never_printed (args : Args) (l : Locals) :
  existsb (String.eqb "No specific validation checks were selected to run.")
    (summary_lines args l) = false.
Proof.
  destruct (existsb _ (summary_lines args l)) eqn:E; [| reflexivity].
  apply existsb_exists in E as (x & Hx & Heq). apply String.eqb_eq in Heq. subst x.
  now apply no_checks_line_absent in Hx.
Qed.

End Classification.

Section SinglePairStatus.

Variable open_and_load : string -> result json.
Variable validate : json -> json -> result unit.

(** X17. The single-pair validator ends with status 0 exactly when it is given
    two paths, both files parse and the schema engine accepts the pair, and
    it then prints the success line only; with status 2 exactly when the
    engine raises a validation error; and with status 1 in every other case
    (wrong number of arguments, a file that cannot be read or parsed, any
    other exception of the engine). *)
Theorem validate_jsonld_script_status (argv : list string) :
  let run := validate_jsonld_script open_and_load validate argv in
  (exit_status (snd run) = 0%Z
   <-> exists prog data_path schema_path data schema,
         argv = [prog; data_path; schema_path]
         /\ open_and_load data_path = Return data
         /\ open_and_load schema_path = Return schema
         /\ validate data schema = Return tt)
  /\ (exit_status (snd run) = 2%Z
      <-> exists prog data_path schema_path data schema message path,
            argv = [prog; data_path; schema_path]
            /\ open_and_load data_path = Return data
            /\ open_and_load schema_path = Return schema
            /\ validate data schema = Raise (ValidationError message path))
  /\ (exit_status (snd run) = 0%Z -> fst run = [Text "Validation successful!"])
  /\ (exit_status (snd run) = 0%Z \/ exit_status (snd run) = 1%Z
      \/ exit_status (snd run) = 2%Z).
Proof.
  cbv zeta. unfold validate_jsonld_script.
  destruct argv as [|prog [|dp [|sp [|x rest]]]];
    try (cbn; repeat split; try discriminate; try (now right; left);
         try (intros (? & ? & ? & ? & ? & ? & _); discriminate);
         intros (? & ? & ? & ? & ? & ? & ? & ? & _); discriminate).
  destruct (open_and_load dp) as [data | e1] eqn:H1.
  2: { cbn. repeat split; try discriminate; try (now right; left).
       - intros (? & ? & ? & ? & ? & Ha & Hd & _). inversion Ha; subst. congruence.
       - intros (? & ? & ? & ? & ? & ? & ? & Ha & Hd & _). inversion Ha; subst.
         congruence. }
  destruct (open_and_load sp) as [schema | e2] eqn:H2.
  2: { cbn. repeat split; try discriminate; try (now right; left).
       - intros (? & ? & ? & ? & ? & Ha & _ & Hs & _). inversion Ha; subst. congruence.
       - intros (? & ? & ? & ? & ? & ? & ? & Ha & _ & Hs & _). inversion Ha; subst.
         congruence. }
  destruct (validate data schema) as [[] | e3] eqn:H3.
  - cbn. repeat split; try discriminate; try (now left).
    + intros _. now exists prog, dp, sp, data, schema.
    + intros (? & ? & ? & ? & ? & ? & ? & Ha & Hd & Hs & Hv). inversion Ha; subst.
      rewrite H1 in Hd. rewrite H2 in Hs. inversion Hd; inversion Hs; subst. congruence.
  - assert (Hno : ~ exists prog' dp' sp' data' schema',
                      [prog; dp; sp] = [prog'; dp'; sp']
                      /\ open_and_load dp' = Return data'
                      /\ open_and_load sp' = Return schema'
                      /\ validate data' schema' = Return tt).
    { intros (? & ? & ? & ? & ? & Ha & Hd & Hs & Hv). inversion Ha; subst.
      rewrite H1 in Hd. rewrite H2 in Hs. inversion Hd; inversion Hs; subst.
      congruence. }
    destruct e3; cbn; repeat split; try discriminate;
      try (now right; left); try (now right; right); try (intros Hx; now apply Hno in Hx);
      try (intros (? & ? & ? & ? & ? & ? & ? & Ha & Hd & Hs & Hv);
           inversion Ha; subst; rewrite H1 in Hd; rewrite H2 in Hs;
           inversion Hd; inversion Hs; subst; rewrite H3 in Hv; discriminate).
    intros _. now exists prog, dp, sp, data, schema, message, path.
Qed.

End SinglePairStatus.

(** * The further properties at work on the sample projects *)

Lemma syntax_failure_propagates_witness :
  check_context_utilization (Sample.world_of Sample.project) "examples/broken.json" "."
  = Return (false,
      "Syntax error: Expecting property name enclosed in double quotes (line 2, column 3)").
Proof.
  refine (proj2 (proj2 (@syntax_failure_propagates (Sample.world_of Sample.project)
                          "examples/broken.json" _ _)) ".").
  reflexivity.
Defined.

Lemma outcome_shape_witness :
  "Missing '@context' key in the example file." <> "".
Proof.
  refine (proj2 (proj2 (proj2 (outcome_shape (Sample.world_of Sample.bound)
                                 "examples/foo_example.json"))) "." _ _).
  reflexivity.
Defined.

Lemma validate_jsonld_structure_passes_iff_witness :
  validate_jsonld_structure (Sample.world_of Sample.twofold) "examples/x.jsonld"
  = Return (true, "").
Proof.
  refine (proj2 (validate_jsonld_structure_passes_iff (Sample.world_of Sample.twofold)
                   "examples/x.jsonld" "") _).
  split; [reflexivity |]. eexists. split; reflexivity.
Defined.

Lemma validate_with_schema_passes_iff_witness :
  validate_with_schema (Sample.world_of Sample.bound)
    "examples/foo_example.json" "./schemas/foo.schema.json"
  = Return (true, "").
Proof.
  refine (proj2 (validate_with_schema_passes_iff (Sample.world_of Sample.bound)
                   "examples/foo_example.json" "./schemas/foo.schema.json" "") _).
  split; [reflexivity |]. eexists; eexists. repeat split.
Defined.

Lemma schema_load_failure_names_schema_witness :
  exists m,
    validate_with_schema (Sample.world_of Sample.schemaless)
      "examples/foo_example.json" "./schemas/foo.schema.json"
    = Return (false, m)
    /\ PyStr.contains "./schemas/foo.schema.json" m = true.
Proof.
  refine (@schema_load_failure_names_schema (Sample.world_of Sample.schemaless)
            "examples/foo_example.json" "./schemas/foo.schema.json"
            (JDict [("@context", JStr "foo_context.jsonld"); ("name", JStr "foo")])
            (FileNotFoundError
               "[Errno 2] No such file or directory: './schemas/foo.schema.json'")
            _ _);
    reflexivity.
Defined.

Lemma missing_context_fails_witness :
  check_context_utilization (Sample.world_of Sample.bound) "examples/foo_example.json" "."
  = Return (false, "Missing '@context' key in the example file.").
Proof.
  refine (@missing_context_fails (Sample.world_of Sample.bound)
            "examples/foo_example.json" "." (JDict [("name", JStr "foo")]) JNull _ _ _);
    reflexivity.
Defined.

Lemma check_context_utilization_raises_iff_witness :
  check_context_utilization (Sample.world_of Sample.arrays) "examples/list_example.json" "."
  = Raise (AttributeError "'list' object has no attribute 'get'").
Proof.
  refine (proj2 (check_context_utilization_raises_iff (Sample.world_of Sample.arrays)
                   "examples/list_example.json" "." _) _).
  exists (JList [JInt 1; JInt 2]). repeat split.
Defined.

Lemma check_context_utilization_passes_iff_witness :
  check_context_utilization (Sample.world_of Sample.schemaless)
    "examples/foo_example.json" "."
  = Return (true,
      "WARNING: No specific expected context mapping for foo_example.json. "
        ++ "Document expanded successfully with provided context 'foo_context.jsonld'.").
Proof.
  refine (proj2 (check_context_utilization_passes_iff (Sample.world_of Sample.schemaless)
                   "examples/foo_example.json" "." _) _).
  exists (JDict [("@context", JStr "foo_context.jsonld"); ("name", JStr "foo")]),
         (JStr "foo_context.jsonld").
  repeat (split; [reflexivity |]). left. repeat split.
Defined.

Lemma legacy_url_is_expected_path_witness :
  normalized_actual_context_path (Sample.world_of Sample.legacy)
    "/proj6/examples/skill_profile_example.json"
    (JStr (LEGACY_CONTEXT_URL ++ "skill_profile_context.jsonld"))
  = Some "/proj6/contexts/skill_profile_context.jsonld".
Proof.
  refine (proj1 (@legacy_url_is_expected_path (Sample.world_of Sample.legacy)
                   "/proj6/examples/skill_profile_example.json" "." JNull
                   "skill_profile_context.jsonld" _ _ _));
    reflexivity.
Defined.


Lemma processed_files_are_discovered_witness :
  NoDup ["examples/broken.json"; "examples/foo_example.json";
         "examples/repo_profile_example.json"; "examples/skill_profile_example.json"].
Proof.
  refine (proj1 (proj2 (proj2
    (@processed_files_are_discovered (Sample.world_of Sample.project)
       (Sample.only_syntax ["examples"]) _
       {| files_to_process :=
            ["examples/broken.json"; "examples/foo_example.json";
             "examples/repo_profile_example.json"; "examples/skill_profile_example.json"];
          example_files :=
            ["examples/broken.json"; "examples/foo_example.json";
             "examples/repo_profile_example.json"; "examples/skill_profile_example.json"];
          jsonld_files := [];
          total_syntax_errors := 1;
          total_jsonld_errors := 0;
          total_schema_errors := 0;
          total_context_errors := 0 |} _)))).
  reflexivity.
Defined.

Lemma nothing_to_validate_witness :
  main (Sample.world_of Sample.project) (Sample.all_checks ["nowhere"; "nothing.json"])
  = (["Warning: Path 'nowhere' is not a valid file or directory. Skipping.";
      "Warning: Path 'nothing.json' is not a valid file or directory. Skipping.";
      "No files found to validate based on the provided paths."],
     Return None).
Proof.
  refine (@nothing_to_validate (Sample.world_of Sample.project)
            (Sample.all_checks ["nowhere"; "nothing.json"]) _).
  intros p [<- | [<- | []]]; split; reflexivity.
Defined.

Lemma totals_within_denominators_witness :
  1 <= 4 /\ 0 <= 0 /\ 0 <= 4 /\ 4 <= 4 /\ 0 <= 4 /\ 4 <= 4.
Proof.
  refine (@totals_within_denominators (Sample.world_of Sample.project)
            (Sample.all_checks ["examples"]) _
            {| files_to_process :=
                 ["examples/broken.json"; "examples/foo_example.json";
                  "examples/repo_profile_example.json";
                  "examples/skill_profile_example.json"];
               example_files :=
                 ["examples/broken.json"; "examples/foo_example.json";
                  "examples/repo_profile_example.json";
                  "examples/skill_profile_example.json"];
               jsonld_files := [];
               total_syntax_errors := 1;
               total_jsonld_errors := 0;
               total_schema_errors := 0;
               total_context_errors := 4 |} _).
  reflexivity.
Defined.

Lemma validate_jsonld_script_status_witness :
  exit_status
    (snd (validate_jsonld_script (load_json (Sample.world_of Sample.bound))
            (fun _ _ => Return tt)
            ["validate_jsonld.py"; "examples/foo_example.json";
             "schemas/foo.schema.json"]))
  = 0%Z.
Proof.
  refine (proj2 (proj1 (validate_jsonld_script_status
                          (load_json (Sample.world_of Sample.bound))
                          (fun _ _ => Return tt)
                          ["validate_jsonld.py"; "examples/foo_example.json";
                           "schemas/foo.schema.json"])) _).
  do 5 eexists. repeat split.
Defined.
